(** * acmoj_client.py: the ACMOJ command-line client

    A shallow embedding of [src/acmoj_client.py] (the transport client
    [ACMOJClient] and the front end [main]) and the properties of it that
    the specification states.

    Conventions of the embedding.
    - A Python [str] is the list of its Unicode code points.
    - A Python object that the program handles as data (the decoded JSON
      result) is a [value].
    - Effects are explicit: a computation maps a state to an [outcome] (a
      returned value or a raised exception) and a new state.  The [World]
      records what the process wrote to its two streams, the calls made to
      [requests.get] and [requests.post], and the [ACMOJClient] objects
      constructed.
    - What the program obtains from outside (environment variable, file
      system, remote service) is read from an [Env]. *)

From Stdlib Require Import ZArith NArith List String Ascii Bool Lia Decimal.
Import ListNotations.
Open Scope Z_scope.
Set Warnings "-register-all".

(* ===================================================================== *)
(** ** Python strings *)
(* ===================================================================== *)

Definition pystr := list N.

(** The code points of an ASCII literal. *)
Definition str (s : string) : pystr := map N_of_ascii (list_ascii_of_string s).

Definition dquote : N := 34.
Definition newline : N := 10.

Fixpoint eqb_str (a b : pystr) : bool :=
  match a, b with
  | [], [] => true
  | x :: a', y :: b' => N.eqb x y && eqb_str a' b'
  | _, _ => false
  end.

(** [str.upper], one character at a time.  It is exact on the ASCII
    range and on the ten other code points whose upper-case form is made
    of ASCII letters (U+00DF, U+0131, U+017F, U+FB00 to U+FB06).  Any other
    code point has an upper-case form with a character outside ASCII in
    it, and is kept as it is: so comparing [upper s] with an ASCII literal
    is comparing [s.upper()] with it. *)
Definition upper_char (c : N) : pystr :=
  if (97 <=? c)%N && (c <=? 122)%N then [c - 32]%N
  else if (c =? 223)%N then [83; 83]%N
  else if (c =? 305)%N then [73]%N
  else if (c =? 383)%N then [83]%N
  else if (c =? 64256)%N then [70; 70]%N
  else if (c =? 64257)%N then [70; 73]%N
  else if (c =? 64258)%N then [70; 76]%N
  else if (c =? 64259)%N then [70; 70; 73]%N
  else if (c =? 64260)%N then [70; 70; 76]%N
  else if (c =? 64261)%N then [83; 84]%N
  else if (c =? 64262)%N then [83; 84]%N
  else [c].

Definition upper (s : pystr) : pystr := flat_map upper_char s.

Fixpoint digits_of_uint (u : Decimal.uint) : pystr :=
  match u with
  | Nil => []
  | D0 u' => 48%N :: digits_of_uint u'
  | D1 u' => 49%N :: digits_of_uint u'
  | D2 u' => 50%N :: digits_of_uint u'
  | D3 u' => 51%N :: digits_of_uint u'
  | D4 u' => 52%N :: digits_of_uint u'
  | D5 u' => 53%N :: digits_of_uint u'
  | D6 u' => 54%N :: digits_of_uint u'
  | D7 u' => 55%N :: digits_of_uint u'
  | D8 u' => 56%N :: digits_of_uint u'
  | D9 u' => 57%N :: digits_of_uint u'
  end.

(** [str(n)] for an [int], which is also how an f-string formats it. *)
Definition str_of_int (z : Z) : pystr :=
  match Z.to_int z with
  | Pos u => digits_of_uint u
  | Neg u => 45%N :: digits_of_uint u
  end.

(* ===================================================================== *)
(** ** Python values and the [json] module *)
(* ===================================================================== *)

(** A [float] is carried by the two observations the program makes of it:
    its truth value and the text [json.dumps] writes for it. *)
Record pyfloat := mkFloat { float_nonzero : bool; float_repr : pystr }.

(** The values [response.json()] can return.  A [dict] is kept as its
    items in insertion order, the order [json.dumps] writes them in. *)
Inductive value :=
| PyNone
| PyBool (b : bool)
| PyInt (z : Z)
| PyFloat (f : pyfloat)
| PyStr (s : pystr)
| PyList (l : list value)
| PyDict (d : list (pystr * value)).

(** Truth value testing, as [if result:] and [not args.token] do it. *)
Definition truthy (v : value) : bool :=
  match v with
  | PyNone => false
  | PyBool b => b
  | PyInt z => negb (z =? 0)
  | PyFloat f => float_nonzero f
  | PyStr s => match s with [] => false | _ => true end
  | PyList l => match l with [] => false | _ => true end
  | PyDict d => match d with [] => false | _ => true end
  end.

(** Truth value of an optional string argument: [None] and the empty
    string are false. *)
Definition truthy_arg (a : option pystr) : bool :=
  match a with
  | Some (_ :: _) => true
  | _ => false
  end.

Module json.

Definition hex_digit (d : N) : N :=
  if (d <? 10)%N then (48 + d)%N else (87 + d)%N.

(** ['\\u{0:04x}'.format(n)] for [n < 0x10000]. *)
Definition u_escape (n : N) : pystr :=
  [92; 117; hex_digit ((n / 4096) mod 16); hex_digit ((n / 256) mod 16);
   hex_digit ((n / 16) mod 16); hex_digit (n mod 16)]%N.

(** The replacement of one character by [py_encode_basestring_ascii]:
    the characters from space to tilde other than the quote and the
    backslash are kept, the others are escaped. *)
Definition escape_char (c : N) : pystr :=
  if (c =? 92)%N then [92; 92]%N
  else if (c =? 34)%N then [92; 34]%N
  else if (32 <=? c)%N && (c <=? 126)%N then [c]
  else if (c =? 8)%N then [92; 98]%N
  else if (c =? 12)%N then [92; 102]%N
  else if (c =? 10)%N then [92; 110]%N
  else if (c =? 13)%N then [92; 114]%N
  else if (c =? 9)%N then [92; 116]%N
  else if (c <? 65536)%N then u_escape c
  else
    let n := (c - 65536)%N in
    let s1 := N.lor 55296 (N.land (N.shiftr n 10) 1023) in
    let s2 := N.lor 56320 (N.land n 1023) in
    u_escape s1 ++ u_escape s2.

Definition encode_basestring_ascii (s : pystr) : pystr :=
  dquote :: flat_map escape_char s ++ [dquote].

(** [sep.join(items)]. *)
Fixpoint join (sep : pystr) (items : list pystr) : pystr :=
  match items with
  | [] => []
  | [x] => x
  | x :: rest => x ++ sep ++ join sep rest
  end.

(** [json.dumps(obj)] with its default arguments: [ensure_ascii=True],
    no indent, item separator [", "] and key separator [": "]. *)
Fixpoint dumps (obj : value) : pystr :=
  match obj with
  | PyNone => str "null"
  | PyBool true => str "true"
  | PyBool false => str "false"
  | PyInt z => str_of_int z
  | PyFloat f => float_repr f
  | PyStr s => encode_basestring_ascii s
  | PyList l => str "[" ++ join (str ", ") (map dumps l) ++ str "]"
  | PyDict d =>
      str "{"
      ++ join (str ", ")
           (map (fun kv => encode_basestring_ascii (fst kv) ++ str ": " ++ dumps (snd kv)) d)
      ++ str "}"
  end.

End json.

(* ===================================================================== *)
(** ** HTTP exchanges, the client object and the world *)
(* ===================================================================== *)

(** A mapping from strings to strings ([headers], [data], [params]). *)
Definition fields := list (pystr * pystr).

Inductive verb := GET | POST.

(** One call to [requests.get] or [requests.post] with its arguments. *)
Record Request := mkRequest {
  req_verb : verb;
  req_url : pystr;
  req_headers : fields;
  req_params : option fields;
  req_data : option fields;
  req_timeout : Z }.

(** Why [response.json()] gives no value: the body is not JSON, and the
    call raises [JSONDecodeError] with a message (since requests 2.27 a
    subclass of [RequestException]); or the decoder raises an exception of
    another class, by its name ([RecursionError] for a body nested too
    deep, [ValueError] for a number with too many digits). *)
Inductive decode_failure :=
| JSONDecodeError (msg : pystr)
| DecodeCrash (name : pystr).

(** A [requests.Response], by the attributes the program reads.  [json]
    is what [response.json()] gives: the decoded value, or why there is
    none. *)
Record Response := mkResponse {
  status_code : Z;
  reason : pystr;
  url : pystr;
  content : list N;
  text : pystr;
  json : value + decode_failure }.

Record ACMOJClient := mkClient {
  api_base : pystr;
  headers : fields }.

(** The exceptions that occur.  [RequestException] stands for the class
    and its subclasses ([ConnectionError], [Timeout], [HTTPError],
    [JSONDecodeError], ...), with [str(e)] as argument; [TypeError] is what
    [open(None)] raises; [SystemExit] is what [exit] raises;
    [OtherException] is an exception of a class that no [except] clause of
    the program catches, by the name of the class ([UnicodeEncodeError],
    [RecursionError], [ValueError], ...). *)
Inductive exn :=
| FileNotFoundError
| PermissionError
| IsADirectoryError
| UnicodeDecodeError
| TypeError
| RequestException (msg : pystr)
| SystemExit (code : Z)
| OtherException (name : pystr).

(** Why a file cannot be read as text. *)
Inductive io_fault :=
| NoSuchFile
| NoPermission
| IsDirectory
| NotUTF8.

(** The exception [open] or [read] raises for it. *)
Definition exn_of_fault (x : io_fault) : exn :=
  match x with
  | NoSuchFile => FileNotFoundError
  | NoPermission => PermissionError
  | IsDirectory => IsADirectoryError
  | NotUTF8 => UnicodeDecodeError
  end.

(** What [open(path, 'r', encoding='utf-8')] and [f.read()] give. *)
Inductive FileReply :=
| FileText (contents : pystr)
| FileFault (x : io_fault).

(** What a call of [requests.get] or [requests.post] gives: an exception
    of the [requests] library (no connection, timeout, ...), an exception
    of another class (a [UnicodeEncodeError] for a header that cannot be
    encoded, ...), or a response. *)
Inductive NetReply :=
| NetFault (msg : pystr)
| NetCrash (name : pystr)
| NetResponse (r : Response).

(** What reaches the error stream: the traceback the interpreter writes
    for an exception that nothing catches.  Its text is the interpreter's;
    what is recorded is that it was written, and for which exception. *)
Inductive report :=
| Traceback (e : exn).

(** The world of one run. *)
Record World := mkWorld {
  (* what the process finds *)
  environ : pystr -> option pystr;
  files : pystr -> FileReply;
  remote : Request -> NetReply;
  (* what the process does *)
  stdout : pystr;
  stderr : list report;
  calls : list Request;
  clients : list ACMOJClient }.

(** The three things the process does to the world. *)
Definition write_stdout (s : pystr) (w : World) : World :=
  mkWorld (environ w) (files w) (remote w)
    (stdout w ++ s) (stderr w) (calls w) (clients w).

Definition record_call (req : Request) (w : World) : World :=
  mkWorld (environ w) (files w) (remote w)
    (stdout w) (stderr w) (calls w ++ [req]) (clients w).

Definition record_client (c : ACMOJClient) (w : World) : World :=
  mkWorld (environ w) (files w) (remote w)
    (stdout w) (stderr w) (calls w) (clients w ++ [c]).

(** The end of a process whose [main] raised: [SystemExit] ends it
    silently, any other exception with its traceback on the error
    stream. *)
Definition uncaught (e : exn) (w : World) : World :=
  match e with
  | SystemExit _ => w
  | _ =>
      mkWorld (environ w) (files w) (remote w)
        (stdout w) (stderr w ++ [Traceback e]) (calls w) (clients w)
  end.

Definition boot (env : pystr -> option pystr) (fs : pystr -> FileReply)
    (net : Request -> NetReply) : World :=
  mkWorld env fs net [] [] [] [].

(* ===================================================================== *)
(** ** Computations *)
(* ===================================================================== *)

Inductive outcome (A : Type) :=
| Ret (a : A)
| Raise (e : exn).
Arguments Ret {A} a.
Arguments Raise {A} e.

(** A computation in a frame [F] (the object [self] of a method, [unit]
    for a function). *)
Definition M (F A : Type) := F * World -> outcome A * (F * World).

Definition ret {F A} (a : A) : M F A := fun s => (Ret a, s).

Definition bind {F A B} (c : M F A) (k : A -> M F B) : M F B :=
  fun s =>
    match c s with
    | (Ret a, s') => k a s'
    | (Raise e, s') => (Raise e, s')
    end.

Declare Scope py_scope.
Delimit Scope py_scope with py.
Notation "x <- c ;; k" := (bind c (fun x => k))
  (at level 61, c at next level, right associativity) : py_scope.
Notation "c ;; k" := (bind c (fun _ => k))
  (at level 61, right associativity) : py_scope.
Open Scope py_scope.

Definition raise {F A} (e : exn) : M F A := fun s => (Raise e, s).

(** [exit(code)]. *)
Definition exit {F A} (code : Z) : M F A := raise (SystemExit code).

(** [print(s)]: the text and a newline on standard output. *)
Definition print {F} (s : pystr) : M F unit :=
  fun '(f, w) => (Ret tt, (f, write_stdout (s ++ [newline]) w)).

(** [os.environ.get(name)]. *)
Definition os_environ_get {F} (name : pystr) : M F (option pystr) :=
  fun '(f, w) => (Ret (environ w name), (f, w)).

(** [with open(path, 'r', encoding='utf-8') as f: f.read()]. *)
Definition open_read {F} (path : pystr) : M F pystr :=
  fun '(f, w) =>
    match files w path with
    | FileText contents => (Ret contents, (f, w))
    | FileFault x => (Raise (exn_of_fault x), (f, w))
    end.

(** [try: body  except ...: handler]; the handler tells which exceptions
    it catches. *)
Definition try_ {F A} (body : M F A) (handler : exn -> option (M F A)) : M F A :=
  fun s =>
    match body s with
    | (Ret a, s') => (Ret a, s')
    | (Raise e, s') =>
        match handler e with
        | Some h => h s'
        | None => (Raise e, s')
        end
    end.

(** [try: x = c; rest  except ...: handler], where the handler reads
    whether [x] is bound (['x' in locals()]). *)
Definition try_bind {F A B} (c : M F A) (rest : A -> M F B)
    (handler : option A -> exn -> option (M F B)) : M F B :=
  fun s =>
    match c s with
    | (Ret x, s') => try_ (rest x) (handler (Some x)) s'
    | (Raise e, s') =>
        match handler None e with
        | Some h => h s'
        | None => (Raise e, s')
        end
    end.

(** The object of the running method. *)
Definition self_ {A} : M A A := fun '(f, w) => (Ret f, (f, w)).

(** A method call [obj.m(...)]: the method runs with [obj] as its [self].
    The caller keeps [obj]; neither operation of the client assigns to an
    attribute of [self]. *)
Definition on {F A B} (obj : A) (m : M A B) : M F B :=
  fun '(f, w) =>
    match m (obj, w) with
    | (r, (_, w')) => (r, (f, w'))
    end.

(** The exit status of the process: 0 when [main] returns, the code of a
    [SystemExit], 1 for an exception nothing catches. *)
Definition exit_status {A} (o : outcome A) : Z :=
  match o with
  | Ret _ => 0
  | Raise (SystemExit code) => code
  | Raise _ => 1
  end.

(* ===================================================================== *)
(** ** The [requests] library, as far as the program uses it *)
(* ===================================================================== *)

Module requests.

(** The call itself: it is recorded, and it returns a response or
    raises. *)
Definition send {F} (req : Request) : M F Response :=
  fun '(f, w) =>
    match remote w req with
    | NetFault msg => (Raise (RequestException msg), (f, record_call req w))
    | NetCrash name => (Raise (OtherException name), (f, record_call req w))
    | NetResponse r => (Ret r, (f, record_call req w))
    end.

(** [requests.get(url, headers=..., params=..., timeout=...)]. *)
Definition get {F} (url : pystr) (headers : fields) (params : option fields)
    (timeout : Z) : M F Response :=
  send (mkRequest GET url headers params None timeout).

(** [requests.post(url, headers=..., data=..., timeout=...)]. *)
Definition post {F} (url : pystr) (headers : fields) (data : option fields)
    (timeout : Z) : M F Response :=
  send (mkRequest POST url headers None data timeout).

(** The message [Response.raise_for_status] builds; empty when the status
    is neither a client error nor a server error. *)
Definition http_error_msg (r : Response) : pystr :=
  if (400 <=? status_code r) && (status_code r <? 500) then
    str_of_int (status_code r) ++ str " Client Error: " ++ reason r
    ++ str " for url: " ++ url r
  else if (500 <=? status_code r) && (status_code r <? 600) then
    str_of_int (status_code r) ++ str " Server Error: " ++ reason r
    ++ str " for url: " ++ url r
  else [].

(** [response.raise_for_status()]: raises [HTTPError] when there is a
    message. *)
Definition raise_for_status {F} (r : Response) : M F unit :=
  match http_error_msg r with
  | [] => ret tt
  | msg => raise (RequestException msg)
  end.

(** [response.ok], which is also the truth value of a response
    ([Response.__bool__]): whether [raise_for_status] would return. *)
Definition ok (r : Response) : bool :=
  match http_error_msg r with
  | [] => true
  | _ => false
  end.

(** [response.json()]. *)
Definition json_ {F} (r : Response) : M F value :=
  match json r with
  | inl v => ret v
  | inr (JSONDecodeError msg) => raise (RequestException msg)
  | inr (DecodeCrash name) => raise (OtherException name)
  end.

End requests.

(* ===================================================================== *)
(** ** class ACMOJClient *)
(* ===================================================================== *)

Module ACMOJClient.

Definition __init__ {F} (access_token : pystr) : M F ACMOJClient :=
  fun '(f, w) =>
    let self :=
      {| api_base := str "https://acm.sjtu.edu.cn/OnlineJudge/api/v1";
         headers :=
           [ (str "Authorization", str "Bearer " ++ access_token);
             (str "Content-Type", str "application/x-www-form-urlencoded");
             (str "User-Agent", str "ACMOJ-Python-Client/2.1") ] |} in
    (Ret self, (f, record_client self w)).

(** [{"status": "success", "message": "Operation successful"}]. *)
Definition no_content_result : value :=
  PyDict [ (str "status", PyStr (str "success"));
           (str "message", PyStr (str "Operation successful")) ].

(** [{"status": "success"}]. *)
Definition empty_body_result : value :=
  PyDict [ (str "status", PyStr (str "success")) ].

(** The statements of [_make_request] that follow the assignment of
    [response]. *)
Definition handle_response (response : Response) : M ACMOJClient value :=
  if status_code response =? 204 then
    ret no_content_result
  else
    requests.raise_for_status response ;;
    match content response with
    | _ :: _ => requests.json_ response
    | [] => ret empty_body_result
    end.

(** [except requests.exceptions.RequestException as e:], with the
    binding of [response] at the time the exception is raised. *)
Definition except_RequestException (response : option Response) (e : exn)
    : option (M ACMOJClient value) :=
  match e with
  | RequestException msg =>
      Some (print (str "API Request failed: " ++ msg) ;;
            (match response with
             | Some r =>
                 if requests.ok r
                 then print (str "Response text: " ++ text r)
                 else ret tt
             | None => ret tt
             end) ;;
            ret PyNone)
  | _ => None
  end.

Definition _make_request (method endpoint : pystr)
    (data params : option fields) : M ACMOJClient value :=
  self <- self_ ;;
  let url := api_base self ++ endpoint in
  if eqb_str (upper method) (str "GET") then
    try_bind (requests.get url (headers self) params 10)
             handle_response except_RequestException
  else if eqb_str (upper method) (str "POST") then
    try_bind (requests.post url (headers self) data 10)
             handle_response except_RequestException
  else
    print (str "Unsupported HTTP method: " ++ method) ;;
    ret PyNone.

Definition submit_solution (problem_id : Z) (language code : pystr)
    : M ACMOJClient value :=
  let data := [ (str "language", language); (str "code", code) ] in
  _make_request (str "POST")
    (str "/problem/" ++ str_of_int problem_id ++ str "/submit")
    (Some data) None.

Definition get_submission_detail (submission_id : Z) : M ACMOJClient value :=
  _make_request (str "GET")
    (str "/submission/" ++ str_of_int submission_id) None None.

End ACMOJClient.

(* ===================================================================== *)
(** ** The command line and [main] *)
(* ===================================================================== *)

(** The sub-command with its arguments, as [argparse] hands them over:
    the integers converted, an option that was not given as [None]. *)
Inductive Subcommand :=
| Submit (problem_id : Z) (language : pystr) (code_file git_url : option pystr)
| Status (submission_id : Z).

(** A command line that [argparse] accepts. *)
Record CommandLine := mkCommandLine {
  flag_token : option pystr;
  subcommand : Subcommand }.

Record Namespace := mkNamespace {
  token : option pystr;
  command : Subcommand }.

(** [parser.parse_args()]: [--token] defaults to the environment variable. *)
Definition parse_args {F} (argv : CommandLine) : M F Namespace :=
  default <- os_environ_get (str "ACMOJ_TOKEN") ;;
  ret {| token := match flag_token argv with
                  | Some t => Some t
                  | None => default
                  end;
         command := subcommand argv |}.

(** The [submit] branch of [main], which leaves [result]. *)
Definition main_submit (client : ACMOJClient) (problem_id : Z) (language : pystr)
    (code_file git_url : option pystr) : M unit value :=
  (if negb (truthy_arg code_file) && negb (truthy_arg git_url) then
     print (str "Error: Either --code-file or --git-url must be provided.") ;;
     exit 1
   else ret tt) ;;
  (if truthy_arg code_file && truthy_arg git_url then
     print (str "Error: Cannot use both --code-file and --git-url at the same time.") ;;
     exit 1
   else ret tt) ;;
  try_
    (code <- match git_url with
             | Some ((_ :: _) as u) => ret u
             | _ =>
                 match code_file with
                 | Some path => open_read path
                 | None => raise TypeError
                 end
             end ;;
     on client (ACMOJClient.submit_solution problem_id language code))
    (fun e =>
       match e with
       | FileNotFoundError =>
           Some (print (str "Error: Code file not found at "
                        ++ match code_file with Some path => path | None => str "None" end) ;;
                 ret PyNone)
       | _ => None
       end).

Definition main (argv : CommandLine) : M unit unit :=
  args <- parse_args argv ;;
  match token args with
  | Some ((_ :: _) as tok) =>
      client <- ACMOJClient.__init__ tok ;;
      result <- match command args with
                | Submit problem_id language code_file git_url =>
                    main_submit client problem_id language code_file git_url
                | Status submission_id =>
                    on client (ACMOJClient.get_submission_detail submission_id)
                end ;;
      if truthy result then print (json.dumps result) else exit 1
  | _ =>
      print (str "Error: Access token not provided. Use --token or set ACMOJ_TOKEN environment variable.")
      (* return *)
  end.

(** Running the script in a world: [main], and the end of the process
    if [main] raises. *)
Definition run (w : World) (argv : CommandLine) : outcome unit * World :=
  match main argv (tt, w) with
  | (Ret a, (_, w')) => (Ret a, w')
  | (Raise e, (_, w')) => (Raise e, uncaught e w')
  end.

(* ===================================================================== *)
(** ** Vocabulary of the properties *)
(* ===================================================================== *)

(** The token [main] works with: the flag, else the environment variable. *)
Definition resolved_token (w : World) (argv : CommandLine) : option pystr :=
  match flag_token argv with
  | Some t => Some t
  | None => environ w (str "ACMOJ_TOKEN")
  end.

(** The request [submit_solution] builds. *)
Definition submit_request (self : ACMOJClient) (problem_id : Z)
    (language code : pystr) : Request :=
  mkRequest POST
    (api_base self ++ str "/problem/" ++ str_of_int problem_id ++ str "/submit")
    (headers self) None
    (Some [ (str "language", language); (str "code", code) ]) 10.

(** The request [get_submission_detail] builds. *)
Definition status_request (self : ACMOJClient) (submission_id : Z) : Request :=
  mkRequest GET
    (api_base self ++ str "/submission/" ++ str_of_int submission_id)
    (headers self) None None 10.

(** The client [main] constructs for a token. *)
Definition client_of (tok : pystr) : ACMOJClient :=
  {| api_base := str "https://acm.sjtu.edu.cn/OnlineJudge/api/v1";
     headers :=
       [ (str "Authorization", str "Bearer " ++ tok);
         (str "Content-Type", str "application/x-www-form-urlencoded");
         (str "User-Agent", str "ACMOJ-Python-Client/2.1") ] |}.

(** [_make_request] from the call on: the [try] block, in which the call
    binds [response], and its handler. *)
Definition exchange (req : Request) : M ACMOJClient value :=
  try_bind (requests.send req) ACMOJClient.handle_response
    ACMOJClient.except_RequestException.

(** What an exchange leaves behind: a value that is a result or, after a
    diagnostic, the failure signal; or an exception of a class the program
    does not catch. *)
Definition exchange_outcome (o : outcome value) (d : pystr) : Prop :=
  match o with
  | Ret v =>
      d = [] \/ v = PyNone /\ exists rest, d = str "API Request failed: " ++ rest
  | Raise e => d = [] /\ exists name, e = OtherException name
  end.

(** The request [_make_request] issues, if the method is supported. *)
Definition issued_request (self : ACMOJClient) (method endpoint : pystr)
    (data params : option fields) : option Request :=
  if eqb_str (upper method) (str "GET") then
    Some (mkRequest GET (api_base self ++ endpoint) (headers self) params None 10)
  else if eqb_str (upper method) (str "POST") then
    Some (mkRequest POST (api_base self ++ endpoint) (headers self) None data 10)
  else None.

(** What is left of [main] once [result] is known. *)
Definition conclude (r : outcome value * (unit * World)) : outcome unit * World :=
  match r with
  | (Ret result, (_, w')) =>
      if truthy result
      then (Ret tt, write_stdout (json.dumps result ++ [newline]) w')
      else (Raise (SystemExit 1), w')
  | (Raise e, (_, w')) => (Raise e, uncaught e w')
  end.




(** The request an invocation leads to: none when the command line names
    no payload or two, or when the code file cannot be read. *)
Definition request_of_invocation (w : World) (client : ACMOJClient)
    (sub : Subcommand) : option Request :=
  match sub with
  | Status submission_id => Some (status_request client submission_id)
  | Submit problem_id language code_file git_url =>
      match truthy_arg code_file, truthy_arg git_url with
      | false, true =>
          match git_url with
          | Some u => Some (submit_request client problem_id language u)
          | None => None
          end
      | true, false =>
          match code_file with
          | Some path =>
              match files w path with
              | FileText code => Some (submit_request client problem_id language code)
              | FileFault _ => None
              end
          | None => None
          end
      | _, _ => None
      end
  end.

(** A status in the 2xx class. *)
Definition success_status (code : Z) : Prop := 200 <= code < 300.

(** A status [raise_for_status] raises for. *)
Definition error_status (code : Z) : Prop := 400 <= code < 600.

(* ===================================================================== *)
(** ** Induction on values *)
(* ===================================================================== *)

Section value_induction.

Variable P : value -> Prop.
Hypothesis P_none : P PyNone.
Hypothesis P_bool : forall b, P (PyBool b).
Hypothesis P_int : forall z, P (PyInt z).
Hypothesis P_float : forall f, P (PyFloat f).
Hypothesis P_str : forall s, P (PyStr s).
Hypothesis P_list : forall l, (forall x, In x l -> P x) -> P (PyList l).
Hypothesis P_dict : forall d, (forall kv, In kv d -> P (snd kv)) -> P (PyDict d).


End value_induction.

(* ===================================================================== *)
(** ** Sample worlds *)
(* ===================================================================== *)

Definition no_environ : pystr -> option pystr := fun _ => None.

Definition no_files : pystr -> FileReply := fun _ => FileFault NoSuchFile.

Definition locked_files : pystr -> FileReply := fun _ => FileFault NoPermission.

Definition one_file (name contents : pystr) : pystr -> FileReply :=
  fun path => if eqb_str path name then FileText contents else FileFault NoSuchFile.

Definition offline : Request -> NetReply :=
  fun _ => NetFault (str "Connection refused").

Definition answering (r : Response) : Request -> NetReply :=
  fun _ => NetResponse r.

Definition sample_url : pystr :=
  str "https://acm.sjtu.edu.cn/OnlineJudge/api/v1/submission/5678".

Definition no_json : value + decode_failure :=
  inr (JSONDecodeError (str "Expecting value: line 1 column 1 (char 0)")).

Definition no_content : Response :=
  mkResponse 204 (str "No Content") sample_url [] [] no_json.

Definition not_modified : Response :=
  mkResponse 304 (str "Not Modified") sample_url [] [] no_json.

Definition not_found : Response :=
  mkResponse 404 (str "Not Found") sample_url
    (str "no such submission") (str "no such submission") no_json.

(** A 200 response with the body [{"id":5678}]. *)
Definition ok_with_id : Response :=
  let body := str "{" ++ [dquote] ++ str "id" ++ [dquote] ++ str ":5678}" in
  mkResponse 200 (str "OK") sample_url body body
    (inl (PyDict [ (str "id", PyInt 5678) ])).

(** A 200 response with the body [{}]. *)
Definition ok_empty_object : Response :=
  mkResponse 200 (str "OK") sample_url (str "{}") (str "{}") (inl (PyDict [])).



(** An environment that holds a token. *)
Definition token_in_environ : pystr -> option pystr :=
  fun name => if eqb_str name (str "ACMOJ_TOKEN") then Some (str "secret") else None.

(** A 200 response with the body [null]. *)
Definition ok_null : Response :=
  mkResponse 200 (str "OK") sample_url (str "null") (str "null") (inl PyNone).

(** A 200 response whose body is not JSON. *)
Definition ok_not_json : Response :=
  mkResponse 200 (str "OK") sample_url (str "<html>") (str "<html>") no_json.

(** Whether a text is made of ASCII characters. *)
Definition ascii_text (s : pystr) : Prop := Forall (fun c => (c < 128)%N) s.

(* ===================================================================== *)
(** ** The exchange with the remote service *)
(* ===================================================================== *)

Lemma http_error_msg_raised r :
  error_status (status_code r) ->
  exists c m, requests.http_error_msg r = c :: m.
Proof.
  unfold error_status, requests.http_error_msg. intros H.
  destruct (400 <=? status_code r) eqn:E4; [ | lia ].
  destruct (status_code r <? 500) eqn:E5; cbn [andb].
  - destruct (str_of_int (status_code r)); cbn; eauto.
  - destruct (500 <=? status_code r) eqn:E6; [ | lia ].
    destruct (status_code r <? 600) eqn:E7; [ | lia ]. cbn [andb].
    destruct (str_of_int (status_code r)); cbn; eauto.
Qed.

Lemma http_error_msg_quiet r :
  ~ error_status (status_code r) -> requests.http_error_msg r = [].
Proof.
  unfold error_status, requests.http_error_msg. intros H.
  destruct (400 <=? status_code r) eqn:E4;
    destruct (status_code r <? 500) eqn:E5;
    destruct (500 <=? status_code r) eqn:E6;
    destruct (status_code r <? 600) eqn:E7; cbn [andb]; try reflexivity; lia.
Qed.

Section Exchange.

Variable self : ACMOJClient.
Variable w : World.
Variable req : Request.

Lemma exchange_fault msg :
  remote w req = NetFault msg ->
  exchange req (self, w)
  = (Ret PyNone,
     (self, write_stdout (str "API Request failed: " ++ msg ++ [newline])
              (record_call req w))).
Proof.
  intros H. unfold exchange, try_bind, requests.send. rewrite H.
  reflexivity.
Qed.

Lemma exchange_no_content r :
  remote w req = NetResponse r -> status_code r = 204 ->
  exchange req (self, w) = (Ret ACMOJClient.no_content_result, (self, record_call req w)).
Proof.
  intros H H204. unfold exchange, try_bind, requests.send. rewrite H.
  unfold try_, ACMOJClient.handle_response. rewrite H204. reflexivity.
Qed.

Lemma exchange_http_error r :
  remote w req = NetResponse r -> error_status (status_code r) ->
  exchange req (self, w)
  = (Ret PyNone,
     (self, write_stdout
              (str "API Request failed: " ++ requests.http_error_msg r ++ [newline])
              (record_call req w))).
Proof.
  intros H Herr. destruct (http_error_msg_raised r Herr) as (c & m & Hmsg).
  unfold exchange, try_bind, requests.send. rewrite H.
  unfold try_, ACMOJClient.handle_response.
  replace (status_code r =? 204) with false
    by (unfold error_status in Herr; lia).
  unfold bind, requests.raise_for_status. rewrite Hmsg.
  unfold raise, ACMOJClient.except_RequestException, bind, requests.ok.
  rewrite Hmsg. reflexivity.
Qed.

Lemma exchange_empty_body r :
  remote w req = NetResponse r -> status_code r <> 204 ->
  ~ error_status (status_code r) -> content r = [] ->
  exchange req (self, w) = (Ret ACMOJClient.empty_body_result, (self, record_call req w)).
Proof.
  intros H H204 Hok Hc.
  unfold exchange, try_bind, requests.send. rewrite H.
  unfold try_, ACMOJClient.handle_response.
  replace (status_code r =? 204) with false by lia.
  unfold bind, requests.raise_for_status.
  rewrite (http_error_msg_quiet r Hok), Hc. reflexivity.
Qed.

Lemma exchange_json r v :
  remote w req = NetResponse r -> status_code r <> 204 ->
  ~ error_status (status_code r) -> content r <> [] -> json r = inl v ->
  exchange req (self, w) = (Ret v, (self, record_call req w)).
Proof.
  intros H H204 Hok Hc Hj.
  unfold exchange, try_bind, requests.send. rewrite H.
  unfold try_, ACMOJClient.handle_response.
  replace (status_code r =? 204) with false by lia.
  unfold bind, requests.raise_for_status.
  rewrite (http_error_msg_quiet r Hok).
  destruct (content r) as [ | b bs ]; [ congruence | ].
  unfold ret, requests.json_. rewrite Hj. reflexivity.
Qed.

Lemma exchange_bad_json r msg :
  remote w req = NetResponse r -> status_code r <> 204 ->
  ~ error_status (status_code r) -> content r <> [] ->
  json r = inr (JSONDecodeError msg) ->
  exchange req (self, w)
  = (Ret PyNone,
     (self, write_stdout (str "Response text: " ++ text r ++ [newline])
              (write_stdout (str "API Request failed: " ++ msg ++ [newline])
                 (record_call req w)))).
Proof.
  intros H H204 Hok Hc Hj.
  unfold exchange, try_bind, requests.send. rewrite H.
  unfold try_, ACMOJClient.handle_response.
  replace (status_code r =? 204) with false by lia.
  unfold bind, requests.raise_for_status.
  rewrite (http_error_msg_quiet r Hok).
  destruct (content r) as [ | b bs ]; [ congruence | ].
  unfold ret, requests.json_. rewrite Hj.
  unfold raise, ACMOJClient.except_RequestException, bind, requests.ok.
  rewrite (http_error_msg_quiet r Hok). reflexivity.
Qed.

Lemma exchange_crash name :
  remote w req = NetCrash name ->
  exchange req (self, w) = (Raise (OtherException name), (self, record_call req w)).
Proof.
  intros H. unfold exchange, try_bind, requests.send. rewrite H.
  reflexivity.
Qed.

Lemma exchange_decode_crash r name :
  remote w req = NetResponse r -> status_code r <> 204 ->
  ~ error_status (status_code r) -> content r <> [] ->
  json r = inr (DecodeCrash name) ->
  exchange req (self, w) = (Raise (OtherException name), (self, record_call req w)).
Proof.
  intros H H204 Hok Hc Hj.
  unfold exchange, try_bind, requests.send. rewrite H.
  unfold try_, ACMOJClient.handle_response.
  replace (status_code r =? 204) with false by lia.
  unfold bind, requests.raise_for_status.
  rewrite (http_error_msg_quiet r Hok).
  destruct (content r) as [ | b bs ]; [ congruence | ].
  unfold ret, requests.json_. rewrite Hj. reflexivity.
Qed.

End Exchange.

(** However the exchange goes, [self] is as before, the call is recorded
    and the only other effect is the diagnostic on standard output. *)
Lemma exchange_total self w req :
  exists o w' d,
    exchange req (self, w) = (o, (self, w'))
    /\ stdout w' = stdout w ++ d /\ stderr w' = stderr w
    /\ calls w' = calls w ++ [req] /\ clients w' = clients w
    /\ environ w' = environ w /\ files w' = files w /\ remote w' = remote w
    /\ exchange_outcome o d.
Proof.
  assert (Hquiet : forall r, remote w req = NetResponse r ->
            status_code r <> 204 -> ~ error_status (status_code r) ->
            exists o w' d,
              exchange req (self, w) = (o, (self, w'))
              /\ stdout w' = stdout w ++ d /\ stderr w' = stderr w
              /\ calls w' = calls w ++ [req] /\ clients w' = clients w
              /\ environ w' = environ w /\ files w' = files w /\ remote w' = remote w
              /\ exchange_outcome o d).
  { intros r Hr H204 Hq.
    destruct (content r) as [ | b bs ] eqn:Hc.
    { eexists _, _, []. split; [ apply exchange_empty_body with r; assumption | ].
      cbn. rewrite app_nil_r. repeat split. now left. }
    assert (Hne : content r <> []) by congruence.
    destruct (json r) as [ v | [ msg | name ] ] eqn:Hj.
    { eexists _, _, []. split; [ apply exchange_json with r; eassumption | ].
      cbn. rewrite app_nil_r. repeat split. now left. }
    { exists (Ret PyNone). eexists.
      exists ((str "API Request failed: " ++ msg ++ [newline])
              ++ (str "Response text: " ++ text r ++ [newline])).
      split; [ apply exchange_bad_json; eassumption | ].
      cbn [stdout stderr calls clients environ files remote write_stdout record_call].
      split; [ symmetry; apply app_assoc | ].
      repeat split. right. split; [ reflexivity | ].
      eexists. rewrite <- app_assoc. reflexivity. }
    eexists _, _, []. split; [ apply exchange_decode_crash with r; eassumption | ].
    cbn. rewrite app_nil_r. repeat split. eexists. reflexivity. }
  destruct (remote w req) as [ msg | name | r ] eqn:Hr.
  - eexists _, _, _. split; [ apply exchange_fault; eassumption | ].
    cbn [stdout stderr calls clients environ files remote write_stdout record_call].
    repeat split. right. split; [ reflexivity | ]. eexists. reflexivity.
  - eexists _, _, []. split; [ apply exchange_crash; eassumption | ].
    cbn. rewrite app_nil_r. repeat split. eexists. reflexivity.
  - destruct (Z.eq_dec (status_code r) 204) as [ H204 | H204 ].
    { eexists _, _, []. split; [ apply exchange_no_content with r; assumption | ].
      cbn. rewrite app_nil_r. repeat split. now left. }
    destruct (Z_le_dec 400 (status_code r)) as [ Hlo | Hlo ];
      [ destruct (Z_lt_dec (status_code r) 600) as [ Hhi | Hhi ] | ].
    + eexists _, _, _. split.
      { apply exchange_http_error; [ eassumption | split; assumption ]. }
      cbn [stdout stderr calls clients environ files remote write_stdout record_call].
      repeat split. right. split; [ reflexivity | ]. eexists. reflexivity.
    + apply (Hquiet r); trivial. unfold error_status. lia.
    + apply (Hquiet r); trivial. unfold error_status. lia.
Qed.

(** The two operations are one exchange each. *)
Lemma submit_solution_exchange self w problem_id language code :
  ACMOJClient.submit_solution problem_id language code (self, w)
  = exchange (submit_request self problem_id language code) (self, w).
Proof. reflexivity. Qed.

Lemma get_submission_detail_exchange self w submission_id :
  ACMOJClient.get_submission_detail submission_id (self, w)
  = exchange (status_request self submission_id) (self, w).
Proof. reflexivity. Qed.

Lemma make_request_exchange self w method endpoint data params req :
  issued_request self method endpoint data params = Some req ->
  ACMOJClient._make_request method endpoint data params (self, w)
  = exchange req (self, w).
Proof.
  unfold issued_request, ACMOJClient._make_request, bind, self_.
  destruct (eqb_str (upper method) (str "GET")).
  - intros [= <-]. reflexivity.
  - destruct (eqb_str (upper method) (str "POST")).
    + intros [= <-]. reflexivity.
    + discriminate.
Qed.

Lemma make_request_unsupported self w method endpoint data params :
  issued_request self method endpoint data params = None ->
  ACMOJClient._make_request method endpoint data params (self, w)
  = (Ret PyNone,
     (self, write_stdout (str "Unsupported HTTP method: " ++ method ++ [newline]) w)).
Proof.
  unfold issued_request, ACMOJClient._make_request, bind, self_.
  destruct (eqb_str (upper method) (str "GET")); [ discriminate | ].
  destruct (eqb_str (upper method) (str "POST")); [ discriminate | ].
  reflexivity.
Qed.

(* ===================================================================== *)
(** ** Properties of the transport client *)
(* ===================================================================== *)

(** C5: whatever the method of a request the client issues, a response
    with status 204 is turned into the fixed object
    [{"status": "success", "message": "Operation successful"}]; so it is for
    the two operations. *)
Theorem no_content_gives_success_marker :
  forall self w method endpoint data params req r,
    issued_request self method endpoint data params = Some req ->
    remote w req = NetResponse r ->
    status_code r = 204 ->
    fst (ACMOJClient._make_request method endpoint data params (self, w))
    = Ret (PyDict [ (str "status", PyStr (str "success"));
                    (str "message", PyStr (str "Operation successful")) ]).
Proof.
  intros self w method endpoint data params req r Hreq Hr H204.
  rewrite (make_request_exchange _ _ _ _ _ _ _ Hreq).
  rewrite (exchange_no_content self w req r Hr H204). reflexivity.
Qed.

(** C6: for a response with a 2xx status other than 204, an empty body
    gives exactly [{"status": "success"}], and a non-empty body gives the
    value [response.json()] decodes it to, unchanged. *)
Theorem success_body_is_returned :
  forall self w method endpoint data params req r,
    issued_request self method endpoint data params = Some req ->
    remote w req = NetResponse r ->
    success_status (status_code r) ->
    status_code r <> 204 ->
    (content r = [] ->
     fst (ACMOJClient._make_request method endpoint data params (self, w))
     = Ret (PyDict [ (str "status", PyStr (str "success")) ]))
    /\ (forall v, content r <> [] -> json r = inl v ->
        fst (ACMOJClient._make_request method endpoint data params (self, w))
        = Ret v).
Proof.
  intros self w method endpoint data params req r Hreq Hr Hok H204.
  assert (Hq : ~ error_status (status_code r))
    by (unfold success_status, error_status in *; lia).
  rewrite (make_request_exchange _ _ _ _ _ _ _ Hreq). split.
  - intros Hc. rewrite (exchange_empty_body self w req r Hr H204 Hq Hc). reflexivity.
  - intros v Hc Hj. rewrite (exchange_json self w req r v Hr H204 Hq Hc Hj). reflexivity.
Qed.

(** C7: [submit_solution] makes exactly one call, a POST to
    [/problem/{problem_id}/submit] under the base endpoint, whose form
    fields [language] and [code] are its arguments as they are; the
    headers of a constructed client announce a form-encoded body. *)
Theorem submit_issues_one_post :
  forall self w problem_id language code,
    calls (snd (snd (ACMOJClient.submit_solution problem_id language code (self, w))))
    = calls w
      ++ [ {| req_verb := POST;
              req_url := api_base self ++ str "/problem/"
                         ++ str_of_int problem_id ++ str "/submit";
              req_headers := headers self;
              req_params := None;
              req_data := Some [ (str "language", language); (str "code", code) ];
              req_timeout := 10 |} ]
    /\ forall tok,
        fst (ACMOJClient.__init__ tok (tt, w))
        = Ret {| api_base := str "https://acm.sjtu.edu.cn/OnlineJudge/api/v1";
                 headers :=
                   [ (str "Authorization", str "Bearer " ++ tok);
                     (str "Content-Type", str "application/x-www-form-urlencoded");
                     (str "User-Agent", str "ACMOJ-Python-Client/2.1") ] |}.
Proof.
  intros self w problem_id language code. split; [ | reflexivity ].
  rewrite submit_solution_exchange.
  destruct (exchange_total self w (submit_request self problem_id language code))
    as (v & w' & d & -> & _ & _ & Hcalls & _).
  exact Hcalls.
Qed.

(** C10: no call of [_make_request], [submit_solution] or
    [get_submission_detail] changes the client: its base endpoint and its
    headers are afterwards what they were, whether the call gave a result
    or the failure signal. *)
Theorem operations_leave_client_unchanged :
  forall self w,
    (forall method endpoint data params,
        fst (snd (ACMOJClient._make_request method endpoint data params (self, w)))
        = self)
    /\ (forall problem_id language code,
        fst (snd (ACMOJClient.submit_solution problem_id language code (self, w)))
        = self)
    /\ (forall submission_id,
        fst (snd (ACMOJClient.get_submission_detail submission_id (self, w)))
        = self).
Proof.
  intros self w. repeat split.
  - intros method endpoint data params.
    destruct (issued_request self method endpoint data params) as [ req | ] eqn:Hreq.
    + rewrite (make_request_exchange _ _ _ _ _ _ _ Hreq).
      destruct (exchange_total self w req) as (v & w' & d & -> & _). reflexivity.
    + rewrite (make_request_unsupported _ _ _ _ _ _ Hreq). reflexivity.
  - intros problem_id language code. rewrite submit_solution_exchange.
    destruct (exchange_total self w (submit_request self problem_id language code))
      as (v & w' & d & -> & _). reflexivity.
  - intros submission_id. rewrite get_submission_detail_exchange.
    destruct (exchange_total self w (status_request self submission_id))
      as (v & w' & d & -> & _). reflexivity.
Qed.

(* ===================================================================== *)
(** ** The front end, step by step *)
(* ===================================================================== *)

Lemma run_without_token w argv :
  truthy_arg (resolved_token w argv) = false ->
  run w argv
  = (Ret tt,
     write_stdout
       (str "Error: Access token not provided. Use --token or set ACMOJ_TOKEN environment variable."
        ++ [newline]) w).
Proof.
  unfold resolved_token, run, main, parse_args, os_environ_get, bind, ret.
  cbn [token]. intros H.
  destruct (match flag_token argv with
            | Some t => Some t
            | None => environ w (str "ACMOJ_TOKEN")
            end) as [ [ | c tok ] | ]; try discriminate; reflexivity.
Qed.

Lemma run_with_token w argv c tok :
  resolved_token w argv = Some (c :: tok) ->
  run w argv
  = conclude
      (match subcommand argv with
       | Submit problem_id language code_file git_url =>
           main_submit (client_of (c :: tok)) problem_id language code_file git_url
       | Status submission_id =>
           on (client_of (c :: tok)) (ACMOJClient.get_submission_detail submission_id)
       end (tt, record_client (client_of (c :: tok)) w)).
Proof.
  unfold resolved_token, run, main, parse_args, os_environ_get, bind, ret.
  cbn [token command]. intros ->.
  unfold ACMOJClient.__init__. fold (client_of (c :: tok)).
  destruct (subcommand argv) as [ problem_id language code_file git_url | submission_id ];
    unfold conclude.
  - destruct (main_submit _ _ _ _ _ _) as [ [ result | e ] [ [] w' ] ]; [ | reflexivity ].
    destruct (truthy result); reflexivity.
  - destruct (on _ _ _) as [ [ result | e ] [ [] w' ] ]; [ | reflexivity ].
    destruct (truthy result); reflexivity.
Qed.

Lemma main_submit_neither client w problem_id language code_file git_url :
  truthy_arg code_file = false -> truthy_arg git_url = false ->
  main_submit client problem_id language code_file git_url (tt, w)
  = (Raise (SystemExit 1),
     (tt, write_stdout
            (str "Error: Either --code-file or --git-url must be provided." ++ [newline]) w)).
Proof.
  intros Hf Hg. unfold main_submit. rewrite Hf, Hg. reflexivity.
Qed.

Lemma main_submit_both client w problem_id language code_file git_url :
  truthy_arg code_file = true -> truthy_arg git_url = true ->
  main_submit client problem_id language code_file git_url (tt, w)
  = (Raise (SystemExit 1),
     (tt, write_stdout
            (str "Error: Cannot use both --code-file and --git-url at the same time."
             ++ [newline]) w)).
Proof.
  intros Hf Hg. unfold main_submit. rewrite Hf, Hg. reflexivity.
Qed.

Lemma main_submit_git client w problem_id language code_file git_url :
  truthy_arg code_file = false -> truthy_arg git_url = true ->
  exists u, git_url = Some u /\
    main_submit client problem_id language code_file git_url (tt, w)
    = on client (ACMOJClient.submit_solution problem_id language u) (tt, w).
Proof.
  intros Hf Hg. destruct git_url as [ [ | c u ] | ]; try discriminate.
  exists (c :: u). split; [ reflexivity | ].
  unfold main_submit. rewrite Hf. cbn [truthy_arg negb andb].
  unfold bind at 1. unfold ret at 1. unfold bind at 1. unfold ret at 1.
  unfold try_, bind, ret, on. rewrite submit_solution_exchange.
  destruct (exchange_total client w (submit_request client problem_id language (c :: u)))
    as (o & w' & d & -> & _ & _ & _ & _ & _ & _ & _ & Ho).
  destruct o as [ v | e ]; [ reflexivity | ].
  destruct Ho as (_ & name & ->). reflexivity.
Qed.

Lemma main_submit_file client w problem_id language (path : pystr) git_url :
  path <> [] -> truthy_arg git_url = false ->
  main_submit client problem_id language (Some path) git_url (tt, w)
  = match files w path with
    | FileText code =>
        on client (ACMOJClient.submit_solution problem_id language code) (tt, w)
    | FileFault NoSuchFile =>
        (Ret PyNone,
         (tt, write_stdout (str "Error: Code file not found at " ++ path ++ [newline]) w))
    | FileFault x => (Raise (exn_of_fault x), (tt, w))
    end.
Proof.
  intros Hp Hg. destruct path as [ | c p ]; [ congruence | ].
  unfold main_submit. rewrite Hg. cbn [truthy_arg negb andb].
  unfold bind at 1. unfold ret at 1. unfold bind at 1. unfold ret at 1.
  replace (match git_url with
           | Some ((_ :: _) as u) => @ret unit pystr u
           | _ => match Some (c :: p) with
                  | Some path => open_read path
                  | None => raise TypeError
                  end
           end) with (@open_read unit (c :: p))
    by (destruct git_url as [ [ | ? ? ] | ]; try discriminate; reflexivity).
  unfold try_, bind, open_read.
  destruct (files w (c :: p)) as [ code | [ | | | ] ]; try reflexivity.
  unfold on. rewrite submit_solution_exchange.
  destruct (exchange_total client w (submit_request client problem_id language code))
    as (o & w' & d & -> & _ & _ & _ & _ & _ & _ & _ & Ho).
  destruct o as [ v | e ]; [ reflexivity | ].
  destruct Ho as (_ & name & ->). reflexivity.
Qed.

(* ===================================================================== *)
(** ** [json.dumps] writes one line *)
(* ===================================================================== *)












(** With a token and a payload, [main] is one exchange and its conclusion. *)
Lemma run_request w argv c tok req :
  resolved_token w argv = Some (c :: tok) ->
  request_of_invocation w (client_of (c :: tok)) (subcommand argv) = Some req ->
  run w argv
  = conclude
      (on (client_of (c :: tok))
         (exchange req)
         (tt, record_client (client_of (c :: tok)) w)).
Proof.
  intros Htok Hreq. rewrite (run_with_token w argv c tok Htok).
  apply (f_equal conclude).
  set (client := client_of (c :: tok)) in *.
  set (w1 := record_client client w).
  destruct (subcommand argv) as [ problem_id language code_file git_url | submission_id ];
    cbn [request_of_invocation] in Hreq.
  - destruct (truthy_arg code_file) eqn:Hf; destruct (truthy_arg git_url) eqn:Hg;
      try discriminate.
    + destruct code_file as [ path | ]; [ | discriminate ].
      assert (Hp : path <> []) by (destruct path; [ discriminate | congruence ]).
      rewrite (main_submit_file client w1 problem_id language path git_url Hp Hg).
      change (files w1 path) with (files w path).
      destruct (files w path) as [ code | x ]; [ | discriminate ].
      injection Hreq as <-. reflexivity.
    + destruct (main_submit_git client w1 problem_id language code_file git_url Hf Hg)
        as (u & -> & ->).
      injection Hreq as <-. reflexivity.
  - injection Hreq as <-. reflexivity.
Qed.

(** With a token and no request to make, [main] fails before any call. *)
Lemma run_no_request w argv c tok :
  resolved_token w argv = Some (c :: tok) ->
  request_of_invocation w (client_of (c :: tok)) (subcommand argv) = None ->
  exists e w' d,
    run w argv = (Raise e, w')
    /\ exit_status (@Raise unit e) = 1
    /\ stdout w' = stdout w ++ d
    /\ calls w' = calls w
    /\ clients w' = clients w ++ [client_of (c :: tok)]
    /\ (d = [] \/ exists rest, d = str "Error: " ++ rest).
Proof.
  intros Htok Hreq. rewrite (run_with_token w argv c tok Htok).
  set (client := client_of (c :: tok)) in *.
  set (w1 := record_client client w).
  destruct (subcommand argv) as [ problem_id language code_file git_url | submission_id ];
    cbn [request_of_invocation] in Hreq; [ | discriminate ].
  destruct (truthy_arg code_file) eqn:Hf; destruct (truthy_arg git_url) eqn:Hg.
  - rewrite (main_submit_both client w1 _ _ _ _ Hf Hg).
    eexists _, _, _. split; [ reflexivity | ]. repeat split.
    right. eexists. reflexivity.
  - destruct code_file as [ path | ]; [ | discriminate ].
    assert (Hp : path <> []) by (destruct path; [ discriminate | congruence ]).
    rewrite (main_submit_file client w1 problem_id language path git_url Hp Hg).
    change (files w1 path) with (files w path).
    destruct (files w path) as [ code | x ]; [ discriminate | ].
    destruct x; cbn [conclude truthy exn_of_fault].
    + eexists _, _, _. split; [ reflexivity | ]. repeat split.
      right. eexists. reflexivity.
    + eexists _, _, []. split; [ reflexivity | ].
      cbn. rewrite app_nil_r. repeat split. now left.
    + eexists _, _, []. split; [ reflexivity | ].
      cbn. rewrite app_nil_r. repeat split. now left.
    + eexists _, _, []. split; [ reflexivity | ].
      cbn. rewrite app_nil_r. repeat split. now left.
  - destruct git_url as [ [ | ? ? ] | ]; discriminate.
  - rewrite (main_submit_neither client w1 _ _ _ _ Hf Hg).
    eexists _, _, _. split; [ reflexivity | ]. repeat split.
    right. eexists. reflexivity.
Qed.

(* ===================================================================== *)
(** ** Properties of the front end *)
(* ===================================================================== *)

(** C1: with no [--token] and [ACMOJ_TOKEN] unset, [main] prints its error,
    constructs no client and makes no call to the remote service; but it
    then returns, so that the process ends with status 0, not with a
    non-zero status. *)
Theorem missing_token_ends_with_status_zero :
  forall w sub,
    environ w (str "ACMOJ_TOKEN") = None ->
    exit_status (fst (run w (mkCommandLine None sub))) = 0
    /\ stdout (snd (run w (mkCommandLine None sub)))
       = stdout w
         ++ str "Error: Access token not provided. Use --token or set ACMOJ_TOKEN environment variable."
         ++ [newline]
    /\ clients (snd (run w (mkCommandLine None sub))) = clients w
    /\ calls (snd (run w (mkCommandLine None sub))) = calls w.
Proof.
  intros w sub Henv.
  rewrite run_without_token.
  - repeat split.
  - unfold resolved_token. cbn [flag_token]. rewrite Henv. reflexivity.
Qed.

(** C8, at an invocation without a token: a [submit] that names no payload,
    or two, then ends with status 0, since [main] returns at the token test
    before it looks at the payload options. *)
Theorem payload_error_without_token_ends_with_status_zero :
  forall w problem_id language code_file git_url,
    environ w (str "ACMOJ_TOKEN") = None ->
    truthy_arg code_file = truthy_arg git_url ->
    exit_status
      (fst (run w (mkCommandLine None
                     (Submit problem_id language code_file git_url)))) = 0.
Proof.
  intros w problem_id language code_file git_url Henv _.
  rewrite run_without_token.
  - reflexivity.
  - unfold resolved_token. cbn [flag_token]. rewrite Henv. reflexivity.
Qed.

(** With a token, a [submit] that names no payload, or two, is refused:
    the error is printed, no call is made, the exit status is 1. *)
Lemma payload_error_with_token :
  forall w argv c tok problem_id language code_file git_url,
    resolved_token w argv = Some (c :: tok) ->
    subcommand argv = Submit problem_id language code_file git_url ->
    truthy_arg code_file = truthy_arg git_url ->
    exit_status (fst (run w argv)) = 1
    /\ calls (snd (run w argv)) = calls w
    /\ exists rest, stdout (snd (run w argv)) = stdout w ++ str "Error: " ++ rest.
Proof.
  intros w argv c tok problem_id language code_file git_url Htok Hsub Heq.
  rewrite (run_with_token w argv c tok Htok), Hsub.
  destruct (truthy_arg code_file) eqn:Hf; symmetry in Heq.
  - rewrite (main_submit_both _ _ _ _ _ _ Hf Heq).
    repeat split. eexists. reflexivity.
  - rewrite (main_submit_neither _ _ _ _ _ _ Hf Heq).
    repeat split. eexists. reflexivity.
Qed.

(** C3, as the code has it: for a [submit] made with a token and with
    [--code-file] only, a file that does not exist is caught where the file
    is opened: the error is printed with the path, no call is made and the
    exit status is 1. *)
Theorem missing_code_file_is_reported :
  forall w flag problem_id language (path : pystr) git_url c tok,
    let argv := mkCommandLine flag (Submit problem_id language (Some path) git_url) in
    resolved_token w argv = Some (c :: tok) ->
    path <> [] ->
    truthy_arg git_url = false ->
    files w path = FileFault NoSuchFile ->
    fst (run w argv) = Raise (SystemExit 1)
    /\ exit_status (fst (run w argv)) = 1
    /\ stdout (snd (run w argv))
       = stdout w ++ str "Error: Code file not found at " ++ path ++ [newline]
    /\ calls (snd (run w argv)) = calls w.
Proof.
  intros w flag problem_id language path git_url c tok argv Htok Hp Hg Hfile.
  rewrite (run_with_token w argv c tok Htok). cbn [argv subcommand].
  rewrite (main_submit_file _ _ _ _ _ _ Hp Hg).
  change (files (record_client (client_of (c :: tok)) w) path) with (files w path).
  rewrite Hfile. repeat split.
Qed.

(** C9: when the service answers a 2xx status other than 204 with a body
    that decodes to the empty object, the front end fails although the
    transport returned a result: nothing is printed and the exit status
    is 1. *)
Theorem empty_object_result_is_a_failure :
  forall w argv c tok req r,
    resolved_token w argv = Some (c :: tok) ->
    request_of_invocation w (client_of (c :: tok)) (subcommand argv) = Some req ->
    remote w req = NetResponse r ->
    success_status (status_code r) ->
    status_code r <> 204 ->
    content r <> [] ->
    json r = inl (PyDict []) ->
    fst (run w argv) = Raise (SystemExit 1)
    /\ exit_status (fst (run w argv)) = 1
    /\ stdout (snd (run w argv)) = stdout w
    /\ calls (snd (run w argv)) = calls w ++ [req].
Proof.
  intros w argv c tok req r Htok Hreq Hr Hok H204 Hc Hj.
  rewrite (run_request w argv c tok req Htok Hreq). unfold on.
  assert (Hq : ~ error_status (status_code r))
    by (unfold success_status, error_status in *; lia).
  rewrite (exchange_json (client_of (c :: tok))
             (record_client (client_of (c :: tok)) w) req r (PyDict []) Hr H204 Hq Hc Hj).
  repeat split.
Qed.


(** C2, as the code has it: for a response whose status is a client or a
    server error (400 to 599), [submit_solution] and [get_submission_detail]
    return the failure signal [None] and raise nothing, and the line
    [API Request failed: ...] with the message of the [HTTPError] is
    printed. *)
Theorem error_status_gives_failure_signal :
  forall self w r,
    error_status (status_code r) ->
    (forall problem_id language code,
        remote w (submit_request self problem_id language code) = NetResponse r ->
        fst (ACMOJClient.submit_solution problem_id language code (self, w)) = Ret PyNone
        /\ exists rest,
            stdout (snd (snd (ACMOJClient.submit_solution problem_id language code
                                (self, w))))
            = stdout w ++ str "API Request failed: " ++ requests.http_error_msg r
              ++ [newline] ++ rest)
    /\ (forall submission_id,
        remote w (status_request self submission_id) = NetResponse r ->
        fst (ACMOJClient.get_submission_detail submission_id (self, w)) = Ret PyNone
        /\ exists rest,
            stdout (snd (snd (ACMOJClient.get_submission_detail submission_id (self, w))))
            = stdout w ++ str "API Request failed: " ++ requests.http_error_msg r
              ++ [newline] ++ rest).
Proof.
  intros self w r Herr. split.
  - intros problem_id language code Hr.
    rewrite submit_solution_exchange, (exchange_http_error _ _ _ r Hr Herr).
    split; [ reflexivity | ]. exists []. cbn [snd stdout write_stdout record_call].
    rewrite app_nil_r. reflexivity.
  - intros submission_id Hr.
    rewrite get_submission_detail_exchange, (exchange_http_error _ _ _ r Hr Herr).
    split; [ reflexivity | ]. exists []. cbn [snd stdout write_stdout record_call].
    rewrite app_nil_r. reflexivity.
Qed.

(** For such a response the body text is not printed: a response with an
    error status is false as a truth value, so the test that guards
    [print(f"Response text: ...")] fails. *)
Lemma error_status_response_text_not_printed :
  forall self w req r,
    remote w req = NetResponse r ->
    error_status (status_code r) ->
    stdout (snd (snd (exchange req (self, w))))
    = stdout w ++ str "API Request failed: " ++ requests.http_error_msg r ++ [newline].
Proof.
  intros self w req r Hr Herr.
  rewrite (exchange_http_error _ _ _ r Hr Herr). reflexivity.
Qed.

(* ===================================================================== *)
(** ** The properties at sample inputs *)
(* ===================================================================== *)

(** [status --submission-id 5678] with no token anywhere. *)
Lemma missing_token_ends_with_status_zero_at_status :
  exit_status (fst (run (boot no_environ no_files offline)
                      (mkCommandLine None (Status 5678)))) = 0
  /\ stdout (snd (run (boot no_environ no_files offline)
                    (mkCommandLine None (Status 5678))))
     = stdout (boot no_environ no_files offline)
       ++ str "Error: Access token not provided. Use --token or set ACMOJ_TOKEN environment variable."
       ++ [newline]
  /\ clients (snd (run (boot no_environ no_files offline)
                     (mkCommandLine None (Status 5678))))
     = clients (boot no_environ no_files offline)
  /\ calls (snd (run (boot no_environ no_files offline)
                   (mkCommandLine None (Status 5678))))
     = calls (boot no_environ no_files offline).
Proof.
  apply (missing_token_ends_with_status_zero
           (boot no_environ no_files offline) (Status 5678)).
  reflexivity.
Defined.

(** [submit --problem-id 1234 --language cpp] with no token anywhere. *)
Lemma payload_error_without_token_at_submit :
  exit_status
    (fst (run (boot no_environ no_files offline)
            (mkCommandLine None (Submit 1234 (str "cpp") None None)))) = 0.
Proof.
  apply (payload_error_without_token_ends_with_status_zero
           (boot no_environ no_files offline) 1234 (str "cpp") None None);
    reflexivity.
Defined.

(** A response 304 with no body is not a success status in the sense of
    C2, and [get_submission_detail] returns [{"status": "success"}] for it,
    not the failure signal. *)
Lemma not_modified_is_not_a_failure :
  status_code not_modified <> 204
  /\ ~ success_status (status_code not_modified)
  /\ fst (ACMOJClient.get_submission_detail 5678
            (client_of (str "secret"),
             boot no_environ no_files (answering not_modified)))
     = Ret (PyDict [ (str "status", PyStr (str "success")) ]).
Proof.
  split; [ discriminate | ]. split; [ | reflexivity ].
  unfold success_status. cbn. lia.
Qed.

(** A response 404 to [status --submission-id 9999]. *)
Lemma error_status_gives_failure_signal_at_404 :
  fst (ACMOJClient.get_submission_detail 9999
         (client_of (str "secret"),
          boot no_environ no_files (answering not_found)))
  = Ret PyNone.
Proof.
  apply (error_status_gives_failure_signal (client_of (str "secret"))
           (boot no_environ no_files (answering not_found)) not_found).
  - unfold error_status. cbn. lia.
  - reflexivity.
Defined.

(** A code file that exists and may not be read: the [PermissionError]
    leaves [main] uncaught, and the program reports nothing. *)
Lemma unreadable_code_file_is_not_caught :
  fst (run (boot no_environ locked_files offline)
         (mkCommandLine (Some (str "secret"))
            (Submit 1234 (str "cpp") (Some (str "solution.cpp")) None)))
  = Raise PermissionError
  /\ stdout (snd (run (boot no_environ locked_files offline)
                    (mkCommandLine (Some (str "secret"))
                       (Submit 1234 (str "cpp") (Some (str "solution.cpp")) None))))
     = [].
Proof. split; reflexivity. Qed.

(** [submit --code-file solution.cpp] where there is no such file. *)
Lemma missing_code_file_is_reported_at_solution_cpp :
  fst (run (boot no_environ no_files offline)
         (mkCommandLine (Some (str "secret"))
            (Submit 1234 (str "cpp") (Some (str "solution.cpp")) None)))
  = Raise (SystemExit 1)
  /\ exit_status
       (fst (run (boot no_environ no_files offline)
               (mkCommandLine (Some (str "secret"))
                  (Submit 1234 (str "cpp") (Some (str "solution.cpp")) None)))) = 1
  /\ stdout (snd (run (boot no_environ no_files offline)
                    (mkCommandLine (Some (str "secret"))
                       (Submit 1234 (str "cpp") (Some (str "solution.cpp")) None))))
     = stdout (boot no_environ no_files offline)
       ++ str "Error: Code file not found at " ++ str "solution.cpp" ++ [newline]
  /\ calls (snd (run (boot no_environ no_files offline)
                   (mkCommandLine (Some (str "secret"))
                      (Submit 1234 (str "cpp") (Some (str "solution.cpp")) None))))
     = calls (boot no_environ no_files offline).
Proof.
  apply (missing_code_file_is_reported (boot no_environ no_files offline)
           (Some (str "secret")) 1234 (str "cpp") (str "solution.cpp") None
           115%N (str "ecret")).
  - reflexivity.
  - discriminate.
  - reflexivity.
  - reflexivity.
Defined.



(** A POST answered with 204. *)
Lemma no_content_gives_success_marker_at_post :
  fst (ACMOJClient._make_request (str "post") (str "/problem/1234/submit")
         (Some [ (str "language", str "cpp"); (str "code", str "int main(){}") ]) None
         (client_of (str "secret"),
          boot no_environ no_files (answering no_content)))
  = Ret (PyDict [ (str "status", PyStr (str "success"));
                  (str "message", PyStr (str "Operation successful")) ]).
Proof.
  apply (no_content_gives_success_marker (client_of (str "secret"))
           (boot no_environ no_files (answering no_content))
           (str "post") (str "/problem/1234/submit")
           (Some [ (str "language", str "cpp"); (str "code", str "int main(){}") ]) None
           (mkRequest POST
              (api_base (client_of (str "secret")) ++ str "/problem/1234/submit")
              (headers (client_of (str "secret"))) None
              (Some [ (str "language", str "cpp"); (str "code", str "int main(){}") ])
              10)
           no_content); reflexivity.
Defined.

(** A GET answered with 200 and the body [{"id":5678}]. *)
Lemma success_body_is_returned_at_get :
  fst (ACMOJClient._make_request (str "GET") (str "/submission/5678") None None
         (client_of (str "secret"),
          boot no_environ no_files (answering ok_with_id)))
  = Ret (PyDict [ (str "id", PyInt 5678) ]).
Proof.
  apply (success_body_is_returned (client_of (str "secret"))
           (boot no_environ no_files (answering ok_with_id))
           (str "GET") (str "/submission/5678") None None
           (status_request (client_of (str "secret")) 5678) ok_with_id).
  - reflexivity.
  - reflexivity.
  - unfold success_status. cbn. lia.
  - discriminate.
  - discriminate.
  - reflexivity.
Defined.

(** [status --submission-id 5678] answered with 200 and the body [{}]. *)
Lemma empty_object_result_is_a_failure_at_status :
  fst (run (boot no_environ no_files (answering ok_empty_object))
         (mkCommandLine (Some (str "secret")) (Status 5678)))
  = Raise (SystemExit 1)
  /\ exit_status
       (fst (run (boot no_environ no_files (answering ok_empty_object))
               (mkCommandLine (Some (str "secret")) (Status 5678)))) = 1
  /\ stdout (snd (run (boot no_environ no_files (answering ok_empty_object))
                    (mkCommandLine (Some (str "secret")) (Status 5678))))
     = stdout (boot no_environ no_files (answering ok_empty_object))
  /\ calls (snd (run (boot no_environ no_files (answering ok_empty_object))
                   (mkCommandLine (Some (str "secret")) (Status 5678))))
     = calls (boot no_environ no_files (answering ok_empty_object))
       ++ [ status_request (client_of (str "secret")) 5678 ].
Proof.
  apply (empty_object_result_is_a_failure
           (boot no_environ no_files (answering ok_empty_object))
           (mkCommandLine (Some (str "secret")) (Status 5678))
           115%N (str "ecret")
           (status_request (client_of (str "secret")) 5678) ok_empty_object).
  - reflexivity.
  - reflexivity.
  - reflexivity.
  - unfold success_status. cbn. lia.
  - discriminate.
  - discriminate.
  - reflexivity.
Defined.

(* ===================================================================== *)
(** ** End-to-end runs *)
(* ===================================================================== *)

(** [submit --problem-id 1234 --language cpp --code-file solution.cpp],
    the file holding [int main(){}], answered with 200 and [{"id":5678}]:
    one POST with the two form fields, the result on standard output,
    status 0. *)
Example run_submit_code_file :
  run (boot no_environ (one_file (str "solution.cpp") (str "int main(){}"))
         (answering ok_with_id))
    (mkCommandLine (Some (str "secret"))
       (Submit 1234 (str "cpp") (Some (str "solution.cpp")) None))
  = (Ret tt,
     mkWorld no_environ (one_file (str "solution.cpp") (str "int main(){}"))
       (answering ok_with_id)
       (str "{" ++ [dquote] ++ str "id" ++ [dquote] ++ str ": 5678}" ++ [newline])
       []
       [ mkRequest POST
           (str "https://acm.sjtu.edu.cn/OnlineJudge/api/v1/problem/1234/submit")
           (headers (client_of (str "secret"))) None
           (Some [ (str "language", str "cpp"); (str "code", str "int main(){}") ])
           10 ]
       [ client_of (str "secret") ]).
Proof. reflexivity. Qed.

(** [submit --language git --git-url ...]: the URL is the [code] field and
    no file is read. *)
Example run_submit_git_url :
  calls (snd (run (boot no_environ locked_files (answering ok_with_id))
                (mkCommandLine (Some (str "secret"))
                   (Submit 1234 (str "git") None
                      (Some (str "https://example.com/repo.git"))))))
  = [ mkRequest POST
        (str "https://acm.sjtu.edu.cn/OnlineJudge/api/v1/problem/1234/submit")
        (headers (client_of (str "secret"))) None
        (Some [ (str "language", str "git");
                (str "code", str "https://example.com/repo.git") ])
        10 ].
Proof. reflexivity. Qed.

(** [status --submission-id 5678] answered with 204. *)
Example run_status_no_content :
  fst (run (boot no_environ no_files (answering no_content))
         (mkCommandLine (Some (str "secret")) (Status 5678))) = Ret tt
  /\ stdout (snd (run (boot no_environ no_files (answering no_content))
                    (mkCommandLine (Some (str "secret")) (Status 5678))))
     = str "{" ++ [dquote] ++ str "status" ++ [dquote] ++ str ": "
       ++ [dquote] ++ str "success" ++ [dquote] ++ str ", "
       ++ [dquote] ++ str "message" ++ [dquote] ++ str ": "
       ++ [dquote] ++ str "Operation successful" ++ [dquote] ++ str "}"
       ++ [newline].
Proof. split; reflexivity. Qed.

(** [status --submission-id 9999] answered with 404: the diagnostic is on
    standard output and the status is 1. *)
Example run_status_not_found :
  exit_status (fst (run (boot no_environ no_files (answering not_found))
                      (mkCommandLine (Some (str "secret")) (Status 9999)))) = 1
  /\ stdout (snd (run (boot no_environ no_files (answering not_found))
                    (mkCommandLine (Some (str "secret")) (Status 9999))))
     = str "API Request failed: 404 Client Error: Not Found for url: "
       ++ sample_url ++ [newline].
Proof. split; reflexivity. Qed.

(** The token of the environment is used when the flag is absent. *)
Example run_token_from_environment :
  clients (snd (run (boot (fun _ => Some (str "secret")) no_files offline)
                  (mkCommandLine None (Status 5678))))
  = [ client_of (str "secret") ].
Proof. reflexivity. Qed.

(* ===================================================================== *)
(** ** Further properties of the transport client *)
(* ===================================================================== *)

(** [get_submission_detail] makes exactly one call, whatever the answer: a
    GET to [/submission/{submission_id}] under the base endpoint, with the
    headers of the client, no parameters, no body and a timeout of 10. *)
Theorem status_issues_one_get :
  forall self w submission_id,
    calls (snd (snd (ACMOJClient.get_submission_detail submission_id (self, w))))
    = calls w
      ++ [ {| req_verb := GET;
              req_url := api_base self ++ str "/submission/"
                         ++ str_of_int submission_id;
              req_headers := headers self;
              req_params := None;
              req_data := None;
              req_timeout := 10 |} ].
Proof.
  intros self w submission_id. rewrite get_submission_detail_exchange.
  destruct (exchange_total self w (status_request self submission_id))
    as (v & w' & d & -> & _ & _ & Hcalls & _).
  exact Hcalls.
Qed.

(** When the call itself fails (no connection, timeout, ...), the request
    gives the failure signal: the exception is caught, one line
    [API Request failed: ...] with its message is printed and nothing
    else, and the call was made once. *)
Theorem network_fault_gives_failure_signal :
  forall self w method endpoint data params req msg,
    issued_request self method endpoint data params = Some req ->
    remote w req = NetFault msg ->
    fst (ACMOJClient._make_request method endpoint data params (self, w)) = Ret PyNone
    /\ stdout (snd (snd (ACMOJClient._make_request method endpoint data params (self, w))))
       = stdout w ++ str "API Request failed: " ++ msg ++ [newline]
    /\ calls (snd (snd (ACMOJClient._make_request method endpoint data params (self, w))))
       = calls w ++ [req].
Proof.
  intros self w method endpoint data params req msg Hreq Hr.
  rewrite (make_request_exchange _ _ _ _ _ _ _ Hreq).
  rewrite (exchange_fault self w req msg Hr). repeat split.
Qed.

(** A method name of ASCII characters that is neither GET nor POST, in
    whatever case, is refused before any call: the line
    [Unsupported HTTP method: ...] is printed with the name as given, and
    the failure signal is returned. *)
Theorem unsupported_method_makes_no_call :
  forall self w method endpoint data params,
    ascii_text method ->
    eqb_str (upper method) (str "GET") = false ->
    eqb_str (upper method) (str "POST") = false ->
    fst (ACMOJClient._make_request method endpoint data params (self, w)) = Ret PyNone
    /\ stdout (snd (snd (ACMOJClient._make_request method endpoint data params (self, w))))
       = stdout w ++ str "Unsupported HTTP method: " ++ method ++ [newline]
    /\ calls (snd (snd (ACMOJClient._make_request method endpoint data params (self, w))))
       = calls w.
Proof.
  intros self w method endpoint data params _ Hget Hpost.
  rewrite make_request_unsupported.
  - repeat split.
  - unfold issued_request. rewrite Hget, Hpost. reflexivity.
Qed.

(** When a response that is no error and not 204 has a body that
    [response.json()] cannot decode, the request gives the failure signal,
    and two lines are printed: [API Request failed: ...] with the message
    of the decoding error, then [Response text: ...] with the body text. *)
Theorem undecodable_body_gives_failure_signal :
  forall self w method endpoint data params req r msg,
    issued_request self method endpoint data params = Some req ->
    remote w req = NetResponse r ->
    status_code r <> 204 ->
    ~ error_status (status_code r) ->
    content r <> [] ->
    json r = inr (JSONDecodeError msg) ->
    fst (ACMOJClient._make_request method endpoint data params (self, w)) = Ret PyNone
    /\ stdout (snd (snd (ACMOJClient._make_request method endpoint data params (self, w))))
       = stdout w ++ str "API Request failed: " ++ msg ++ [newline]
         ++ str "Response text: " ++ text r ++ [newline].
Proof.
  intros self w method endpoint data params req r msg Hreq Hr H204 Hq Hc Hj.
  rewrite (make_request_exchange _ _ _ _ _ _ _ Hreq).
  rewrite (exchange_bad_json self w req r msg Hr H204 Hq Hc Hj).
  split; [ reflexivity | ].
  cbn [snd stdout write_stdout record_call].
  rewrite <- !app_assoc. reflexivity.
Qed.

(** For a response with a client or server error status, the only line
    printed is [API Request failed: ...]: the body text of the response is
    not printed, since such a response is false as a truth value. *)
Theorem error_status_prints_one_line :
  forall self w method endpoint data params req r,
    issued_request self method endpoint data params = Some req ->
    remote w req = NetResponse r ->
    error_status (status_code r) ->
    stdout (snd (snd (ACMOJClient._make_request method endpoint data params (self, w))))
    = stdout w ++ str "API Request failed: " ++ requests.http_error_msg r ++ [newline].
Proof.
  intros self w method endpoint data params req r Hreq Hr Herr.
  rewrite (make_request_exchange _ _ _ _ _ _ _ Hreq).
  rewrite (exchange_http_error self w req r Hr Herr). reflexivity.
Qed.


(* ===================================================================== *)
(** ** Further properties of the front end *)
(* ===================================================================== *)

Lemma request_of_invocation_shape w client sub req :
  request_of_invocation w client sub = Some req ->
  req_headers req = headers client /\ req_timeout req = 10.
Proof.
  destruct sub as [ problem_id language code_file git_url | submission_id ];
    cbn [request_of_invocation].
  - destruct (truthy_arg code_file); destruct (truthy_arg git_url); try discriminate.
    + destruct code_file as [ path | ]; [ | discriminate ].
      destruct (files w path); [ | discriminate ].
      intros [= <-]. split; reflexivity.
    + destruct git_url as [ u | ]; [ | discriminate ].
      intros [= <-]. split; reflexivity.
  - intros [= <-]. split; reflexivity.
Qed.

Lemma conclude_world o w1 :
  match o with
  | Ret _ => True
  | Raise e => exists name, e = OtherException name
  end ->
  clients (snd (conclude (o, (tt, w1)))) = clients w1
  /\ calls (snd (conclude (o, (tt, w1)))) = calls w1
  /\ (exit_status (fst (conclude (o, (tt, w1)))) = 0
      \/ exit_status (fst (conclude (o, (tt, w1)))) = 1).
Proof.
  destruct o as [ v | e ]; cbn [conclude].
  - intros _. destruct (truthy v); cbn; auto.
  - intros (name & ->). cbn. auto.
Qed.

(** With a token, a run constructs one client and makes the call of its
    invocation, if it has one. *)
Lemma run_with_token_summary w argv c tok :
  resolved_token w argv = Some (c :: tok) ->
  clients (snd (run w argv)) = clients w ++ [client_of (c :: tok)]
  /\ calls (snd (run w argv))
     = calls w
       ++ match request_of_invocation w (client_of (c :: tok)) (subcommand argv) with
          | Some req => [req]
          | None => []
          end
  /\ (exit_status (fst (run w argv)) = 0 \/ exit_status (fst (run w argv)) = 1).
Proof.
  intros Htok.
  destruct (request_of_invocation w (client_of (c :: tok)) (subcommand argv))
    as [ req | ] eqn:Hreq.
  - rewrite (run_request w argv c tok req Htok Hreq). unfold on.
    destruct (exchange_total (client_of (c :: tok))
                (record_client (client_of (c :: tok)) w) req)
      as (o & w' & d & -> & _ & _ & Hcalls & Hclients & _ & _ & _ & Ho).
    assert (Hraise : match o with
                     | Ret _ => True
                     | Raise e => exists name, e = OtherException name
                     end).
    { destruct o as [ v | e ]; [ exact I | ]. destruct Ho as (_ & Hname). exact Hname. }
    destruct (conclude_world o w' Hraise) as (-> & -> & Hexit).
    rewrite Hcalls, Hclients. repeat split. exact Hexit.
  - destruct (run_no_request w argv c tok Htok Hreq)
      as (e & w' & d & -> & He & _ & Hcalls & Hclients & _).
    cbn [fst snd]. rewrite Hcalls, Hclients, app_nil_r.
    repeat split. right. exact He.
Qed.

(** A run makes at most one call to the remote service; the call it makes
    is sent with the headers built from the token in use, the
    [Authorization] header being [Bearer] and that token, and with a
    timeout of 10. *)
Theorem run_makes_at_most_one_call :
  forall w argv,
    calls (snd (run w argv)) = calls w
    \/ exists tok req,
        resolved_token w argv = Some tok
        /\ calls (snd (run w argv)) = calls w ++ [req]
        /\ req_headers req
           = [ (str "Authorization", str "Bearer " ++ tok);
               (str "Content-Type", str "application/x-www-form-urlencoded");
               (str "User-Agent", str "ACMOJ-Python-Client/2.1") ]
        /\ req_timeout req = 10.
Proof.
  intros w argv.
  destruct (resolved_token w argv) as [ [ | c tok ] | ] eqn:Hres.
  - left. rewrite run_without_token; [ reflexivity | now rewrite Hres ].
  - destruct (run_with_token_summary w argv c tok Hres) as (_ & Hcalls & _).
    destruct (request_of_invocation w (client_of (c :: tok)) (subcommand argv))
      as [ req | ] eqn:Hreq.
    + right. exists (c :: tok), req. split; [ reflexivity | ].
      split; [ exact Hcalls | ].
      destruct (request_of_invocation_shape _ _ _ _ Hreq) as (-> & ->).
      split; reflexivity.
    + left. rewrite Hcalls. apply app_nil_r.
  - left. rewrite run_without_token; [ reflexivity | now rewrite Hres ].
Qed.

(** A non-empty [--token] is the token in use whatever the environment
    holds: the run constructs exactly one client, built from it. *)
Theorem token_flag_overrides_environment :
  forall w sub (t : pystr),
    t <> [] ->
    clients (snd (run w (mkCommandLine (Some t) sub)))
    = clients w
      ++ [ {| api_base := str "https://acm.sjtu.edu.cn/OnlineJudge/api/v1";
              headers :=
                [ (str "Authorization", str "Bearer " ++ t);
                  (str "Content-Type", str "application/x-www-form-urlencoded");
                  (str "User-Agent", str "ACMOJ-Python-Client/2.1") ] |} ].
Proof.
  intros w sub t Ht. destruct t as [ | c tok ]; [ congruence | ].
  destruct (run_with_token_summary w (mkCommandLine (Some (c :: tok)) sub) c tok)
    as (Hclients & _); [ reflexivity | ].
  exact Hclients.
Qed.

(** Without [--token], a non-empty [ACMOJ_TOKEN] of the environment is the
    token in use: the run constructs exactly one client, built from it. *)
Theorem token_is_taken_from_environment :
  forall w sub (t : pystr),
    environ w (str "ACMOJ_TOKEN") = Some t ->
    t <> [] ->
    clients (snd (run w (mkCommandLine None sub)))
    = clients w
      ++ [ {| api_base := str "https://acm.sjtu.edu.cn/OnlineJudge/api/v1";
              headers :=
                [ (str "Authorization", str "Bearer " ++ t);
                  (str "Content-Type", str "application/x-www-form-urlencoded");
                  (str "User-Agent", str "ACMOJ-Python-Client/2.1") ] |} ].
Proof.
  intros w sub t Henv Ht. destruct t as [ | c tok ]; [ congruence | ].
  destruct (run_with_token_summary w (mkCommandLine None sub) c tok)
    as (Hclients & _).
  - unfold resolved_token. cbn [flag_token]. exact Henv.
  - exact Hclients.
Qed.

(** An empty [--token] is no token, and the environment is not consulted
    for another: whatever [ACMOJ_TOKEN] holds, the token error is printed,
    no client is constructed and no call is made. *)
Theorem empty_token_flag_masks_environment :
  forall w sub,
    stdout (snd (run w (mkCommandLine (Some []) sub)))
    = stdout w
      ++ str "Error: Access token not provided. Use --token or set ACMOJ_TOKEN environment variable."
      ++ [newline]
    /\ clients (snd (run w (mkCommandLine (Some []) sub))) = clients w
    /\ calls (snd (run w (mkCommandLine (Some []) sub))) = calls w.
Proof.
  intros w sub. rewrite run_without_token; [ | reflexivity ]. repeat split.
Qed.


(** A result that is false as a truth value ([null], [false], [0], an
    empty string, list or object) counts as a failure although the call
    succeeded: nothing is printed and the exit status is 1. *)
Theorem falsy_result_is_a_failure :
  forall w argv c tok req r v,
    resolved_token w argv = Some (c :: tok) ->
    request_of_invocation w (client_of (c :: tok)) (subcommand argv) = Some req ->
    remote w req = NetResponse r ->
    status_code r <> 204 ->
    ~ error_status (status_code r) ->
    content r <> [] ->
    json r = inl v ->
    truthy v = false ->
    fst (run w argv) = Raise (SystemExit 1)
    /\ stdout (snd (run w argv)) = stdout w
    /\ calls (snd (run w argv)) = calls w ++ [req].
Proof.
  intros w argv c tok req r v Htok Hreq Hr H204 Hq Hc Hj Hv.
  rewrite (run_request w argv c tok req Htok Hreq). unfold on.
  rewrite (exchange_json (client_of (c :: tok))
             (record_client (client_of (c :: tok)) w) req r v Hr H204 Hq Hc Hj).
  cbn [conclude]. rewrite Hv. repeat split.
Qed.

(** A result that is true as a truth value is printed: standard output
    receives its [json.dumps] text and a newline, nothing else, and [main]
    returns, after one call. *)
Theorem truthy_result_is_printed :
  forall w argv c tok req r v,
    resolved_token w argv = Some (c :: tok) ->
    request_of_invocation w (client_of (c :: tok)) (subcommand argv) = Some req ->
    remote w req = NetResponse r ->
    status_code r <> 204 ->
    ~ error_status (status_code r) ->
    content r <> [] ->
    json r = inl v ->
    truthy v = true ->
    fst (run w argv) = Ret tt
    /\ stdout (snd (run w argv)) = stdout w ++ json.dumps v ++ [newline]
    /\ calls (snd (run w argv)) = calls w ++ [req].
Proof.
  intros w argv c tok req r v Htok Hreq Hr H204 Hq Hc Hj Hv.
  rewrite (run_request w argv c tok req Htok Hreq). unfold on.
  rewrite (exchange_json (client_of (c :: tok))
             (record_client (client_of (c :: tok)) w) req r v Hr H204 Hq Hc Hj).
  cbn [conclude]. rewrite Hv. repeat split.
Qed.

(** When the service answers an invocation with 204, the run succeeds and
    prints the line
    [{"status": "success", "message": "Operation successful"}]. *)
Theorem no_content_run_prints_marker :
  forall w argv c tok req r,
    resolved_token w argv = Some (c :: tok) ->
    request_of_invocation w (client_of (c :: tok)) (subcommand argv) = Some req ->
    remote w req = NetResponse r ->
    status_code r = 204 ->
    fst (run w argv) = Ret tt
    /\ stdout (snd (run w argv))
       = stdout w
         ++ str "{" ++ [dquote] ++ str "status" ++ [dquote] ++ str ": "
         ++ [dquote] ++ str "success" ++ [dquote] ++ str ", "
         ++ [dquote] ++ str "message" ++ [dquote] ++ str ": "
         ++ [dquote] ++ str "Operation successful" ++ [dquote] ++ str "}"
         ++ [newline].
Proof.
  intros w argv c tok req r Htok Hreq Hr H204.
  rewrite (run_request w argv c tok req Htok Hreq). unfold on.
  rewrite (exchange_no_content (client_of (c :: tok))
             (record_client (client_of (c :: tok)) w) req r Hr H204).
  split; reflexivity.
Qed.

(** When the service answers an invocation with a status that is no error
    and not 204, and with an empty body, the run succeeds and prints the
    line [{"status": "success"}]. *)
Theorem empty_body_run_prints_success :
  forall w argv c tok req r,
    resolved_token w argv = Some (c :: tok) ->
    request_of_invocation w (client_of (c :: tok)) (subcommand argv) = Some req ->
    remote w req = NetResponse r ->
    status_code r <> 204 ->
    ~ error_status (status_code r) ->
    content r = [] ->
    fst (run w argv) = Ret tt
    /\ stdout (snd (run w argv))
       = stdout w
         ++ str "{" ++ [dquote] ++ str "status" ++ [dquote] ++ str ": "
         ++ [dquote] ++ str "success" ++ [dquote] ++ str "}"
         ++ [newline].
Proof.
  intros w argv c tok req r Htok Hreq Hr H204 Hq Hc.
  rewrite (run_request w argv c tok req Htok Hreq). unfold on.
  rewrite (exchange_empty_body (client_of (c :: tok))
             (record_client (client_of (c :: tok)) w) req r Hr H204 Hq Hc).
  split; reflexivity.
Qed.

(** When the call of an invocation fails (no connection, timeout, ...), the
    run prints the line [API Request failed: ...] with the message of the
    exception and exits with status 1; the call is not repeated. *)
Theorem unreachable_service_ends_with_status_one :
  forall w argv c tok req msg,
    resolved_token w argv = Some (c :: tok) ->
    request_of_invocation w (client_of (c :: tok)) (subcommand argv) = Some req ->
    remote w req = NetFault msg ->
    fst (run w argv) = Raise (SystemExit 1)
    /\ stdout (snd (run w argv)) = stdout w ++ str "API Request failed: " ++ msg ++ [newline]
    /\ calls (snd (run w argv)) = calls w ++ [req].
Proof.
  intros w argv c tok req msg Htok Hreq Hr.
  rewrite (run_request w argv c tok req Htok Hreq). unfold on.
  rewrite (exchange_fault (client_of (c :: tok))
             (record_client (client_of (c :: tok)) w) req msg Hr).
  repeat split.
Qed.

(** [submit] with [--git-url] only: one POST whose [code] field is the URL
    as given, whatever the file system holds. *)
Theorem submit_git_url_sends_the_url :
  forall w flag problem_id language code_file (u : pystr) c tok,
    let argv := mkCommandLine flag (Submit problem_id language code_file (Some u)) in
    resolved_token w argv = Some (c :: tok) ->
    truthy_arg code_file = false ->
    u <> [] ->
    calls (snd (run w argv))
    = calls w
      ++ [ {| req_verb := POST;
              req_url := str "https://acm.sjtu.edu.cn/OnlineJudge/api/v1"
                         ++ str "/problem/" ++ str_of_int problem_id ++ str "/submit";
              req_headers := headers (client_of (c :: tok));
              req_params := None;
              req_data := Some [ (str "language", language); (str "code", u) ];
              req_timeout := 10 |} ].
Proof.
  intros w flag problem_id language code_file u c tok argv Htok Hf Hu.
  destruct (run_with_token_summary w argv c tok Htok) as (_ & Hcalls & _).
  rewrite Hcalls. cbn [argv subcommand request_of_invocation]. rewrite Hf.
  destruct u as [ | x u ]; [ congruence | ]. reflexivity.
Qed.

(** [submit] with [--code-file] only, the file being readable: one POST
    whose [code] field is the text of the file as it is. *)
Theorem submit_code_file_sends_the_contents :
  forall w flag problem_id language (path : pystr) git_url code c tok,
    let argv := mkCommandLine flag (Submit problem_id language (Some path) git_url) in
    resolved_token w argv = Some (c :: tok) ->
    path <> [] ->
    truthy_arg git_url = false ->
    files w path = FileText code ->
    calls (snd (run w argv))
    = calls w
      ++ [ {| req_verb := POST;
              req_url := str "https://acm.sjtu.edu.cn/OnlineJudge/api/v1"
                         ++ str "/problem/" ++ str_of_int problem_id ++ str "/submit";
              req_headers := headers (client_of (c :: tok));
              req_params := None;
              req_data := Some [ (str "language", language); (str "code", code) ];
              req_timeout := 10 |} ].
Proof.
  intros w flag problem_id language path git_url code c tok argv Htok Hp Hg Hfile.
  destruct (run_with_token_summary w argv c tok Htok) as (_ & Hcalls & _).
  rewrite Hcalls. cbn [argv subcommand request_of_invocation]. rewrite Hg, Hfile.
  destruct path as [ | x path ]; [ congruence | ]. reflexivity.
Qed.

(** [submit] with [--code-file] only, the file being there but not
    readable as text (no permission, a directory, not UTF-8): the
    exception is not caught by [main], which prints nothing and makes no
    call; the process ends with status 1. *)
Theorem unreadable_code_file_ends_with_status_one :
  forall w flag problem_id language (path : pystr) git_url x c tok,
    let argv := mkCommandLine flag (Submit problem_id language (Some path) git_url) in
    resolved_token w argv = Some (c :: tok) ->
    path <> [] ->
    truthy_arg git_url = false ->
    files w path = FileFault x ->
    x <> NoSuchFile ->
    fst (run w argv) = Raise (exn_of_fault x)
    /\ exit_status (fst (run w argv)) = 1
    /\ stdout (snd (run w argv)) = stdout w
    /\ calls (snd (run w argv)) = calls w.
Proof.
  intros w flag problem_id language path git_url x c tok argv Htok Hp Hg Hfile Hx.
  rewrite (run_with_token w argv c tok Htok). cbn [argv subcommand].
  rewrite (main_submit_file _ _ _ _ _ _ Hp Hg).
  change (files (record_client (client_of (c :: tok)) w) path) with (files w path).
  rewrite Hfile. destruct x; [ congruence | | | ]; repeat split.
Qed.

(* ===================================================================== *)
(** ** The further properties at sample inputs *)
(* ===================================================================== *)

(** [status --submission-id 5678] while the service cannot be reached. *)
Lemma network_fault_gives_failure_signal_at_get :
  fst (ACMOJClient._make_request (str "GET") (str "/submission/5678") None None
         (client_of (str "secret"), boot no_environ no_files offline))
  = Ret PyNone.
Proof.
  apply (network_fault_gives_failure_signal (client_of (str "secret"))
           (boot no_environ no_files offline)
           (str "GET") (str "/submission/5678") None None
           (status_request (client_of (str "secret")) 5678)
           (str "Connection refused")); reflexivity.
Defined.

(** The method PUT. *)
Lemma unsupported_method_makes_no_call_at_put :
  calls (snd (snd (ACMOJClient._make_request (str "PUT") (str "/submission/5678")
                     None None
                     (client_of (str "secret"),
                      boot no_environ no_files (answering ok_with_id)))))
  = calls (boot no_environ no_files (answering ok_with_id)).
Proof.
  apply (unsupported_method_makes_no_call (client_of (str "secret"))
           (boot no_environ no_files (answering ok_with_id))
           (str "PUT") (str "/submission/5678") None None).
  - unfold ascii_text. repeat constructor.
  - reflexivity.
  - reflexivity.
Defined.

(** A 200 response with a body that is not JSON. *)
Lemma undecodable_body_gives_failure_signal_at_html :
  fst (ACMOJClient._make_request (str "GET") (str "/submission/5678") None None
         (client_of (str "secret"),
          boot no_environ no_files (answering ok_not_json)))
  = Ret PyNone.
Proof.
  apply (undecodable_body_gives_failure_signal (client_of (str "secret"))
           (boot no_environ no_files (answering ok_not_json))
           (str "GET") (str "/submission/5678") None None
           (status_request (client_of (str "secret")) 5678) ok_not_json
           (str "Expecting value: line 1 column 1 (char 0)")).
  - reflexivity.
  - reflexivity.
  - discriminate.
  - unfold error_status. cbn. lia.
  - discriminate.
  - reflexivity.
Defined.

(** A 404 response with a body. *)
Lemma error_status_prints_one_line_at_404 :
  stdout (snd (snd (ACMOJClient._make_request (str "GET") (str "/submission/9999")
                      None None
                      (client_of (str "secret"),
                       boot no_environ no_files (answering not_found)))))
  = stdout (boot no_environ no_files (answering not_found))
    ++ str "API Request failed: " ++ requests.http_error_msg not_found ++ [newline].
Proof.
  apply (error_status_prints_one_line (client_of (str "secret"))
           (boot no_environ no_files (answering not_found))
           (str "GET") (str "/submission/9999") None None
           (status_request (client_of (str "secret")) 9999) not_found).
  - reflexivity.
  - reflexivity.
  - unfold error_status. cbn. lia.
Defined.

(** [--token other] while the environment holds another token. *)
Lemma token_flag_overrides_environment_at_status :
  clients (snd (run (boot token_in_environ no_files offline)
                  (mkCommandLine (Some (str "other")) (Status 5678))))
  = clients (boot token_in_environ no_files offline)
    ++ [ {| api_base := str "https://acm.sjtu.edu.cn/OnlineJudge/api/v1";
            headers :=
              [ (str "Authorization", str "Bearer " ++ str "other");
                (str "Content-Type", str "application/x-www-form-urlencoded");
                (str "User-Agent", str "ACMOJ-Python-Client/2.1") ] |} ].
Proof.
  apply (token_flag_overrides_environment (boot token_in_environ no_files offline)
           (Status 5678) (str "other")).
  discriminate.
Defined.

(** No [--token] while the environment holds one. *)
Lemma token_is_taken_from_environment_at_status :
  clients (snd (run (boot token_in_environ no_files offline)
                  (mkCommandLine None (Status 5678))))
  = clients (boot token_in_environ no_files offline)
    ++ [ {| api_base := str "https://acm.sjtu.edu.cn/OnlineJudge/api/v1";
            headers :=
              [ (str "Authorization", str "Bearer " ++ str "secret");
                (str "Content-Type", str "application/x-www-form-urlencoded");
                (str "User-Agent", str "ACMOJ-Python-Client/2.1") ] |} ].
Proof.
  apply (token_is_taken_from_environment (boot token_in_environ no_files offline)
           (Status 5678) (str "secret")).
  - reflexivity.
  - discriminate.
Defined.

(** [submit] with a token and both payload options. *)
Lemma payload_error_with_token_at_both :
  exit_status
    (fst (run (boot no_environ no_files offline)
            (mkCommandLine (Some (str "secret"))
               (Submit 1234 (str "git") (Some (str "solution.cpp"))
                  (Some (str "https://example.com/repo.git")))))) = 1.
Proof.
  apply (payload_error_with_token (boot no_environ no_files offline)
           (mkCommandLine (Some (str "secret"))
              (Submit 1234 (str "git") (Some (str "solution.cpp"))
                 (Some (str "https://example.com/repo.git"))))
           115%N (str "ecret") 1234 (str "git") (Some (str "solution.cpp"))
           (Some (str "https://example.com/repo.git"))); reflexivity.
Defined.

(** [status --submission-id 5678] answered with 200 and the body [null]. *)
Lemma falsy_result_is_a_failure_at_null :
  fst (run (boot no_environ no_files (answering ok_null))
         (mkCommandLine (Some (str "secret")) (Status 5678)))
  = Raise (SystemExit 1).
Proof.
  apply (falsy_result_is_a_failure (boot no_environ no_files (answering ok_null))
           (mkCommandLine (Some (str "secret")) (Status 5678))
           115%N (str "ecret")
           (status_request (client_of (str "secret")) 5678) ok_null PyNone).
  - reflexivity.
  - reflexivity.
  - reflexivity.
  - discriminate.
  - unfold error_status. cbn. lia.
  - discriminate.
  - reflexivity.
  - reflexivity.
Defined.

(** [status --submission-id 5678] answered with 200 and [{"id":5678}]. *)
Lemma truthy_result_is_printed_at_id :
  stdout (snd (run (boot no_environ no_files (answering ok_with_id))
                 (mkCommandLine (Some (str "secret")) (Status 5678))))
  = stdout (boot no_environ no_files (answering ok_with_id))
    ++ json.dumps (PyDict [ (str "id", PyInt 5678) ]) ++ [newline].
Proof.
  apply (truthy_result_is_printed (boot no_environ no_files (answering ok_with_id))
           (mkCommandLine (Some (str "secret")) (Status 5678))
           115%N (str "ecret")
           (status_request (client_of (str "secret")) 5678) ok_with_id
           (PyDict [ (str "id", PyInt 5678) ])).
  - reflexivity.
  - reflexivity.
  - reflexivity.
  - discriminate.
  - unfold error_status. cbn. lia.
  - discriminate.
  - reflexivity.
  - reflexivity.
Defined.

(** [submit --git-url ...] answered with 204. *)
Lemma no_content_run_prints_marker_at_submit :
  fst (run (boot no_environ no_files (answering no_content))
         (mkCommandLine (Some (str "secret"))
            (Submit 1234 (str "git") None (Some (str "https://example.com/repo.git")))))
  = Ret tt.
Proof.
  apply (no_content_run_prints_marker (boot no_environ no_files (answering no_content))
           (mkCommandLine (Some (str "secret"))
              (Submit 1234 (str "git") None (Some (str "https://example.com/repo.git"))))
           115%N (str "ecret")
           (submit_request (client_of (str "secret")) 1234 (str "git")
              (str "https://example.com/repo.git"))
           no_content); reflexivity.
Defined.

(** [status --submission-id 5678] answered with 304 and no body. *)
Lemma empty_body_run_prints_success_at_304 :
  fst (run (boot no_environ no_files (answering not_modified))
         (mkCommandLine (Some (str "secret")) (Status 5678)))
  = Ret tt.
Proof.
  apply (empty_body_run_prints_success
           (boot no_environ no_files (answering not_modified))
           (mkCommandLine (Some (str "secret")) (Status 5678))
           115%N (str "ecret")
           (status_request (client_of (str "secret")) 5678) not_modified).
  - reflexivity.
  - reflexivity.
  - reflexivity.
  - discriminate.
  - unfold error_status. cbn. lia.
  - reflexivity.
Defined.

(** [status --submission-id 5678] while the service cannot be reached. *)
Lemma unreachable_service_ends_with_status_one_at_status :
  fst (run (boot no_environ no_files offline)
         (mkCommandLine (Some (str "secret")) (Status 5678)))
  = Raise (SystemExit 1).
Proof.
  apply (unreachable_service_ends_with_status_one (boot no_environ no_files offline)
           (mkCommandLine (Some (str "secret")) (Status 5678))
           115%N (str "ecret")
           (status_request (client_of (str "secret")) 5678)
           (str "Connection refused")); reflexivity.
Defined.

(** [submit --language git --git-url https://example.com/repo.git]. *)
Lemma submit_git_url_sends_the_url_at_repo :
  calls (snd (run (boot no_environ locked_files offline)
                (mkCommandLine (Some (str "secret"))
                   (Submit 1234 (str "git") None
                      (Some (str "https://example.com/repo.git"))))))
  = calls (boot no_environ locked_files offline)
    ++ [ {| req_verb := POST;
            req_url := str "https://acm.sjtu.edu.cn/OnlineJudge/api/v1"
                       ++ str "/problem/" ++ str_of_int 1234 ++ str "/submit";
            req_headers := headers (client_of (115%N :: str "ecret"));
            req_params := None;
            req_data := Some [ (str "language", str "git");
                               (str "code", str "https://example.com/repo.git") ];
            req_timeout := 10 |} ].
Proof.
  apply (submit_git_url_sends_the_url (boot no_environ locked_files offline)
           (Some (str "secret")) 1234 (str "git") None
           (str "https://example.com/repo.git") 115%N (str "ecret")).
  - reflexivity.
  - reflexivity.
  - discriminate.
Defined.

(** [submit --language cpp --code-file solution.cpp], the file holding
    [int main(){}]. *)
Lemma submit_code_file_sends_the_contents_at_solution_cpp :
  calls (snd (run (boot no_environ (one_file (str "solution.cpp") (str "int main(){}"))
                     offline)
                (mkCommandLine (Some (str "secret"))
                   (Submit 1234 (str "cpp") (Some (str "solution.cpp")) None))))
  = calls (boot no_environ (one_file (str "solution.cpp") (str "int main(){}")) offline)
    ++ [ {| req_verb := POST;
            req_url := str "https://acm.sjtu.edu.cn/OnlineJudge/api/v1"
                       ++ str "/problem/" ++ str_of_int 1234 ++ str "/submit";
            req_headers := headers (client_of (115%N :: str "ecret"));
            req_params := None;
            req_data := Some [ (str "language", str "cpp");
                               (str "code", str "int main(){}") ];
            req_timeout := 10 |} ].
Proof.
  apply (submit_code_file_sends_the_contents
           (boot no_environ (one_file (str "solution.cpp") (str "int main(){}")) offline)
           (Some (str "secret")) 1234 (str "cpp") (str "solution.cpp") None
           (str "int main(){}") 115%N (str "ecret")).
  - reflexivity.
  - discriminate.
  - reflexivity.
  - reflexivity.
Defined.

(** [submit --code-file solution.cpp], the file not being readable. *)
Lemma unreadable_code_file_ends_with_status_one_at_solution_cpp :
  fst (run (boot no_environ locked_files offline)
         (mkCommandLine (Some (str "secret"))
            (Submit 1234 (str "cpp") (Some (str "solution.cpp")) None)))
  = Raise (exn_of_fault NoPermission).
Proof.
  apply (unreadable_code_file_ends_with_status_one
           (boot no_environ locked_files offline)
           (Some (str "secret")) 1234 (str "cpp") (str "solution.cpp") None
           NoPermission 115%N (str "ecret")).
  - reflexivity.
  - discriminate.
  - reflexivity.
  - reflexivity.
  - discriminate.
Defined.

(* ===================================================================== *)
(** ** Exceptions that the program does not catch *)
(* ===================================================================== *)





(** A code file that is a directory: the traceback of the
    [IsADirectoryError] is on the error stream. *)
Example run_code_file_is_a_directory :
  run (boot no_environ (fun _ => FileFault IsDirectory) offline)
    (mkCommandLine (Some (str "secret"))
       (Submit 1234 (str "cpp") (Some (str "src")) None))
  = (Raise IsADirectoryError,
     mkWorld no_environ (fun _ => FileFault IsDirectory) offline
       [] [ Traceback IsADirectoryError ] [] [ client_of (str "secret") ]).
Proof. reflexivity. Qed.

(** The method name [po], U+017F, [t] is POST once in upper case. *)
Example make_request_long_s :
  calls (snd (snd (ACMOJClient._make_request (str "po" ++ [383%N] ++ str "t")
                     (str "/problem/1234/submit") None None
                     (client_of (str "secret"),
                      boot no_environ no_files offline))))
  = [ mkRequest POST
        (str "https://acm.sjtu.edu.cn/OnlineJudge/api/v1/problem/1234/submit")
        (headers (client_of (str "secret"))) None None 10 ].
Proof. reflexivity. Qed.
